(** * Knowledge canvas backend: the flow-document service

    A shallow embedding of [src/main.py]: the [FlowDataManager] class (the data
    access layer over one Firestore collection) and the Flask route functions
    that call it, followed by the properties the specification states about
    them.

    Python values are the type [json]; a Python [dict] is a finite map from
    strings.  Code that can raise runs in a state-and-exception monad whose
    state is the document store together with the clocks, the log of store
    round trips and an oracle that decides which round trips raise.  Calls to
    [logger] and [print] write to a log file only and are left out. *)

From stdpp Require Import gmap strings list fin_maps.
From Stdlib Require Import ZArith.

#[local] Set Warnings "-register-all".
#[local] Open Scope Z_scope.

(** ** Python values *)

(** What [request.get_json()] and [DocumentSnapshot.to_dict()] hand to the
    program: JSON values, plus the datetime the store returns for a server
    timestamp.  Numbers are integers: the program only tests a number for
    being zero and for equality. *)
Inductive json :=
  | JNull
  | JBool (b : bool)
  | JNum (n : Z)
  | JStr (s : string)
  | JTime (t : Z)
  | JList (l : list json)
  | JDict (m : gmap string json).

Fixpoint json_eq_dec (x y : json) {struct x} : Decision (x = y).
Proof.
  pose (go := json_eq_dec : EqDecision json).
  refine (match x, y with
          | JNull, JNull => left _
          | JBool a, JBool b => cast_if (decide (a = b))
          | JNum a, JNum b => cast_if (decide (a = b))
          | JStr a, JStr b => cast_if (decide (a = b))
          | JTime a, JTime b => cast_if (decide (a = b))
          | JList a, JList b => cast_if (decide (a = b))
          | JDict a, JDict b => cast_if (decide (a = b))
          | _, _ => right _
          end); clear go json_eq_dec; abstract congruence.
Defined.

#[global] Instance json_eq_decision : EqDecision json := json_eq_dec.

(** A Python dict literal. *)
Definition dict (items : list (string * json)) : gmap string json :=
  list_to_map items.

(** Truth value of an object, as [if x:] and [not x] take it. *)
Definition truthy (v : json) : bool :=
  match v with
  | JNull => false
  | JBool b => b
  | JNum n => negb (n =? 0)
  | JStr s => negb (bool_decide (s = ""))
  | JTime _ => true
  | JList l => negb (bool_decide (l = []))
  | JDict m => negb (bool_decide (m = ∅))
  end.

(** [isinstance(v, list)] *)
Definition isinstance_list (v : json) : bool :=
  match v with JList _ => true | _ => false end.

(** [v != s] where [s] is a [str]: only the same string compares equal. *)
Definition ne_str (v : json) (s : string) : bool :=
  match v with
  | JStr t => negb (bool_decide (t = s))
  | _ => true
  end.

(** ** Exceptions *)

Inductive exn :=
  | KeyError (key : string)
  | TypeError
  | AttributeError
  | BadRequest
  | NotFound
  | StoreFailure (detail : string).

(** [str(e)], up to the wording of the interpreter's messages. *)
Definition exn_str (e : exn) : string :=
  match e with
  | KeyError k => "'" ++ k ++ "'"
  | TypeError => "TypeError"
  | AttributeError => "AttributeError"
  | BadRequest => "400 Bad Request"
  | NotFound => "404 No document to update"
  | StoreFailure d => d
  end.

Inductive result (A : Type) :=
  | Ok (a : A)
  | Raise (e : exn).
Arguments Ok {A} a.
Arguments Raise {A} e.

(** [d.get(k, default)]: a method of dicts only. *)
Definition py_get (d : json) (k : string) (dflt : json) : result json :=
  match d with
  | JDict m => Ok (default dflt (m !! k))
  | _ => Raise AttributeError
  end.

(** [o[k]] with a string key. *)
Definition py_getitem (o : json) (k : string) : result json :=
  match o with
  | JDict m => match m !! k with Some v => Ok v | None => Raise (KeyError k) end
  | _ => Raise TypeError
  end.

(** [o[k] = v] with a string key: the object after the assignment. *)
Definition py_setitem (o : json) (k : string) (v : json) : result json :=
  match o with
  | JDict m => Ok (JDict (<[k := v]> m))
  | _ => Raise TypeError
  end.

(** [len(v)]; a string counts one per character of its ASCII text. *)
Definition py_len (v : json) : result json :=
  match v with
  | JList l => Ok (JNum (Z.of_nat (length l)))
  | JDict m => Ok (JNum (Z.of_nat (size m)))
  | JStr s => Ok (JNum (Z.of_nat (String.length s)))
  | _ => Raise TypeError
  end.

Fixpoint chars (s : string) : list json :=
  match s with
  | EmptyString => []
  | String c s' => JStr (String c EmptyString) :: chars s'
  end.

(** The elements [for x in v] runs through. *)
Definition py_iter (v : json) : result (list json) :=
  match v with
  | JList l => Ok l
  | JDict m => Ok (JStr <$> (map_to_list m).*1)
  | JStr s => Ok (chars s)
  | _ => Raise TypeError
  end.

(** [[x for x in l if keep(x)]] where [keep] can raise: the first exception
    ends the comprehension. *)
Fixpoint comprehension (keep : json -> result bool) (l : list json)
  : result (list json) :=
  match l with
  | [] => Ok []
  | x :: l' =>
      match keep x with
      | Raise e => Raise e
      | Ok b =>
          match comprehension keep l' with
          | Raise e => Raise e
          | Ok r => Ok (if b then x :: r else r)
          end
      end
  end.

(** ** The state-and-exception monad *)

Definition M (S A : Type) : Type := S -> result A * S.

Definition ret {S A} (a : A) : M S A := fun s => (Ok a, s).

Definition raise {S A} (e : exn) : M S A := fun s => (Raise e, s).

Definition bind {S A B} (m : M S A) (k : A -> M S B) : M S B :=
  fun s =>
    match m s with
    | (Ok a, s') => k a s'
    | (Raise e, s') => (Raise e, s')
    end.

(** [try: body / except Exception as e: handler(e)]. What [body] did to the
    state before it raised stays done. *)
Definition try_except {S A} (body : M S A) (handler : exn -> M S A) : M S A :=
  fun s =>
    match body s with
    | (Ok a, s') => (Ok a, s')
    | (Raise e, s') => handler e s'
    end.

Definition lift {S A} (r : result A) : M S A := fun s => (r, s).

Definition gets {S A} (f : S -> A) : M S A := fun s => (Ok (f s), s).

Definition modify {S} (f : S -> S) : M S unit := fun s => (Ok tt, f s).

Declare Scope monad_scope.
Delimit Scope monad_scope with monad.
Notation "x <- m ;; k" := (bind m (fun x => k))
  (at level 100, m at next level, right associativity) : monad_scope.
Notation "m ;; k" := (bind m (fun _ => k))
  (at level 100, right associativity) : monad_scope.
#[local] Open Scope monad_scope.

(** ** The document store

    The Firestore client is not part of the repository. Its model keeps what
    the program relies on: [set] replaces the whole document, [get] gives a
    snapshot, [delete] does not look whether the document is there, [update]
    writes the named fields of a document that exists and raises [NotFound]
    otherwise, and the transforms [SERVER_TIMESTAMP] and [ArrayUnion] are
    resolved by the server. Every round trip can raise. *)

Definition doc_ref : Type := string * string.

Inductive store_call :=
  | CallSet (r : doc_ref)
  | CallGet (r : doc_ref)
  | CallDelete (r : doc_ref)
  | CallUpdate (r : doc_ref).

Definition is_write (c : store_call) : bool :=
  match c with
  | CallGet _ => false
  | _ => true
  end.

Record world := World {
  docs : gmap doc_ref (gmap string json);  (* the stored documents *)
  server_time : Z;                         (* the store's clock *)
  local_time : string;                     (* datetime.now().isoformat() *)
  faults : list (option exn);              (* what the coming round trips raise *)
  calls : list store_call                  (* round trips issued, latest first *)
}.

Definition set_docs (f : gmap doc_ref (gmap string json) ->
                         gmap doc_ref (gmap string json)) (w : world) : world :=
  World (f (docs w)) (server_time w + 1) (local_time w) (faults w) (calls w).

(** The value of a field in a [set] or [update] payload. *)
Inductive field_value :=
  | Plain (v : json)
  | SERVER_TIMESTAMP
  | ArrayUnion (vs : list json).

(** Elements of [vs] not yet in the array are appended, in order. *)
Definition array_union (old vs : list json) : list json :=
  fold_left (fun acc v => if bool_decide (v ∈ acc) then acc else acc ++ [v]) vs old.

Definition stored_array (d : gmap string json) (k : string) : list json :=
  match d !! k with
  | Some (JList l) => l
  | _ => []
  end.

Definition write_field (now : Z) (d : gmap string json)
    (kv : string * field_value) : gmap string json :=
  match kv.2 with
  | Plain v => <[kv.1 := v]> d
  | SERVER_TIMESTAMP => <[kv.1 := JTime now]> d
  | ArrayUnion vs => <[kv.1 := JList (array_union (stored_array d kv.1) vs)]> d
  end.

Definition write_fields (now : Z) (data : list (string * field_value))
    (d : gmap string json) : gmap string json :=
  fold_left (write_field now) data d.

(** What the oracle has in store for the coming round trip. *)
Definition next_fault (w : world) : option exn :=
  match faults w with
  | Some e :: _ => Some e
  | _ => None
  end.

Definition after_call (c : store_call) (w : world) : world :=
  World (docs w) (server_time w) (local_time w) (tail (faults w)) (c :: calls w).

(** One request to the store: logged, and raising when the oracle says so. *)
Definition round_trip (c : store_call) : M world unit :=
  fun w =>
    match next_fault w with
    | Some e => (Raise e, after_call c w)
    | None => (Ok tt, after_call c w)
    end.

(** [db.collection(name).document(id)]: no round trip. Every string is taken
    to name a document of the collection, which is what the client does for
    the keys [is_document_id] accepts; a key with ['/'] the client reads as a
    path, and this check of the id's path syntax is not modelled. A key that
    is not a string is refused (for [None] the client would draw a random id;
    the routes pass it only when a request body says [null]). *)
Definition document (collection : string) (document_id : json) : M world doc_ref :=
  match document_id with
  | JStr s => ret (collection, s)
  | _ => raise TypeError
  end.

(** [doc_ref.set(data)] *)
Definition doc_set (r : doc_ref) (data : list (string * field_value)) : M world unit :=
  round_trip (CallSet r) ;;
  now <- gets server_time ;;
  modify (set_docs (<[r := write_fields now data ∅]>)).

(** [doc_ref.get()]: the snapshot is [None] when its [exists] is false, and
    [Some fields] when [to_dict()] gives the dict of [fields]. *)
Definition doc_get (r : doc_ref) : M world (option (gmap string json)) :=
  round_trip (CallGet r) ;;
  gets (fun w => docs w !! r).

(** [doc_ref.delete()] *)
Definition doc_delete (r : doc_ref) : M world unit :=
  round_trip (CallDelete r) ;;
  modify (set_docs (delete r)).

(** [doc_ref.update(data)] *)
Definition doc_update (r : doc_ref) (data : list (string * field_value)) : M world unit :=
  round_trip (CallUpdate r) ;;
  now <- gets server_time ;;
  stored <- gets (fun w => docs w !! r) ;;
  match stored with
  | None => raise NotFound
  | Some d => modify (set_docs (<[r := write_fields now data d]>))
  end.

(** [datetime.now().isoformat()] *)
Definition datetime_now_isoformat : M world string := gets local_time.

(** ** Mutable arguments

    A method that assigns into an object it was handed runs on the store paired
    with that object; the caller sees the object as the method left it. *)

Definition on_world {O A} (m : M world A) : M (world * O) A :=
  fun s =>
    let (r, w') := m s.1 in (r, (w', s.2)).

Definition read_obj {O} : M (world * O) O := gets snd.

Definition write_obj {O} (o : O) : M (world * O) unit :=
  modify (fun s => (s.1, o)).

(** Runs [m] on a fresh reference to [o] that nobody else holds. *)
Definition with_obj {O A} (o : O) (m : M (world * O) A) : M world A :=
  fun w =>
    let (r, s') := m (w, o) in (r, s'.1).

(** ** The data access layer: class [FlowDataManager] *)

Module FlowDataManager.

Record t := Build { collection_name : string }.

(** [__init__]; the client handle [self.db] is the [world]. *)
Definition init : t := Build "reactflow_data".

Definition save_flow_data (self : t) (user_id nodes edges theme : json)
    : M world bool :=
  try_except
    (doc_ref <- document (collection_name self) user_id ;;
     node_count <- lift (py_len nodes) ;;
     edge_count <- lift (py_len edges) ;;
     let data := [ ("nodes", Plain nodes);
                   ("edges", Plain edges);
                   ("theme", Plain theme);
                   ("updated_at", SERVER_TIMESTAMP);
                   ("node_count", Plain node_count);
                   ("edge_count", Plain edge_count) ] in
     doc_set doc_ref data ;;
     ret true)
    (fun _ => ret false).

(** The answer is the stored dict, or [JNull] for Python's [None]. *)
Definition get_flow_data (self : t) (user_id : json) : M world json :=
  try_except
    (doc_ref <- document (collection_name self) user_id ;;
     doc <- doc_get doc_ref ;;
     match doc with
     | Some fields => ret (JDict fields)
     | None => ret JNull
     end)
    (fun _ => ret JNull).

Definition delete_flow_data (self : t) (user_id : json) : M world bool :=
  try_except
    (doc_ref <- document (collection_name self) user_id ;;
     doc_delete doc_ref ;;
     ret true)
    (fun _ => ret false).

(** [node['data']['created_at'] = ...] assigns into the dict that [node]
    holds under ['data']: the object [node] refers to shows the new entry. *)
Definition add_node (self : t) (user_id : json) : M (world * json) bool :=
  try_except
    (doc_ref <- on_world (document (collection_name self) user_id) ;;
     now <- on_world datetime_now_isoformat ;;
     node <- read_obj ;;
     data <- lift (py_getitem node "data") ;;
     data' <- lift (py_setitem data "created_at" (JStr now)) ;;
     node' <- lift (py_setitem node "data" data') ;;
     write_obj node' ;;
     on_world (doc_update doc_ref [ ("nodes", ArrayUnion [node']);
                                    ("updated_at", SERVER_TIMESTAMP) ]) ;;
     ret true)
    (fun _ => ret false).

(** [n['id'] != node_id] *)
Definition keep_node (node_id : string) (n : json) : result bool :=
  match py_getitem n "id" with
  | Raise e => Raise e
  | Ok i => Ok (ne_str i node_id)
  end.

(** [e['source'] != node_id and e['target'] != node_id]: the target is only
    looked at when the source differs. *)
Definition keep_edge (node_id : string) (e : json) : result bool :=
  match py_getitem e "source" with
  | Raise x => Raise x
  | Ok s =>
      if ne_str s node_id then
        match py_getitem e "target" with
        | Raise x => Raise x
        | Ok t => Ok (ne_str t node_id)
        end
      else Ok false
  end.

Definition remove_node (self : t) (user_id : json) (node_id : string)
    : M world bool :=
  try_except
    (flow_data <- get_flow_data self user_id ;;
     if negb (truthy flow_data) then ret false
     else
       nodes <- lift (py_get flow_data "nodes" (JList [])) ;;
       ns <- lift (py_iter nodes) ;;
       updated_nodes <- lift (comprehension (keep_node node_id) ns) ;;
       edges <- lift (py_get flow_data "edges" (JList [])) ;;
       es <- lift (py_iter edges) ;;
       updated_edges <- lift (comprehension (keep_edge node_id) es) ;;
       doc_ref <- document (collection_name self) user_id ;;
       doc_update doc_ref [ ("nodes", Plain (JList updated_nodes));
                            ("edges", Plain (JList updated_edges));
                            ("updated_at", SERVER_TIMESTAMP) ] ;;
       ret true)
    (fun _ => ret false).

End FlowDataManager.

(** ** The routes *)

Record response := Response { body : json; status : Z }.

(** [jsonify({...})], with the status the route returns beside it (200 when
    it returns none). *)
Definition jsonify (items : list (string * json)) (code : Z) : response :=
  Response (JDict (dict items)) code.

(** The body of a request: [None] when it does not parse as JSON, in which
    case [request.get_json()] raises. *)
Record http_request := Request { payload : option json }.

Definition get_json (request : http_request) : M world json :=
  match payload request with
  | Some v => ret v
  | None => raise BadRequest
  end.

Definition not_initialized : response :=
  jsonify [("error", JStr "Firebase not initialized")] 500.

(** [POST /api/flow/save] *)
Definition save_flow (flow_manager : option FlowDataManager.t)
    (request : http_request) : M world response :=
  match flow_manager with
  | None => ret not_initialized
  | Some fm =>
      try_except
        (data <- get_json request ;;
         user_id <- lift (py_get data "user_id" (JStr "default_user")) ;;
         nodes <- lift (py_get data "nodes" (JList [])) ;;
         edges <- lift (py_get data "edges" (JList [])) ;;
         theme <- lift (py_get data "theme" (JStr "light")) ;;
         if negb (isinstance_list nodes) || negb (isinstance_list edges) then
           ret (jsonify [("error", JStr "Invalid data format")] 400)
         else
           success <- FlowDataManager.save_flow_data fm user_id nodes edges theme ;;
           if success : bool then
             node_count <- lift (py_len nodes) ;;
             edge_count <- lift (py_len edges) ;;
             ret (jsonify [ ("message", JStr "Flow data saved successfully");
                            ("node_count", node_count);
                            ("edge_count", edge_count) ] 200)
           else ret (jsonify [("error", JStr "Failed to save flow data")] 500))
        (fun e => ret (jsonify [("error", JStr (exn_str e))] 500))
  end.

(** [GET /api/flow/load/<user_id>] *)
Definition load_flow (flow_manager : option FlowDataManager.t)
    (user_id : string) : M world response :=
  match flow_manager with
  | None => ret not_initialized
  | Some fm =>
      try_except
        (flow_data <- FlowDataManager.get_flow_data fm (JStr user_id) ;;
         if truthy flow_data then
           nodes <- lift (py_get flow_data "nodes" (JList [])) ;;
           edges <- lift (py_get flow_data "edges" (JList [])) ;;
           theme <- lift (py_get flow_data "theme" (JStr "light")) ;;
           updated_at <- lift (py_get flow_data "updated_at" JNull) ;;
           node_count <- lift (py_get flow_data "node_count" (JNum 0)) ;;
           edge_count <- lift (py_get flow_data "edge_count" (JNum 0)) ;;
           ret (jsonify [ ("nodes", nodes);
                          ("edges", edges);
                          ("theme", theme);
                          ("updated_at", updated_at);
                          ("node_count", node_count);
                          ("edge_count", edge_count) ] 200)
         else
           ret (jsonify [ ("nodes", JList []);
                          ("edges", JList []);
                          ("theme", JStr "light");
                          ("message", JStr "No data found for user") ] 200))
        (fun e => ret (jsonify [("error", JStr (exn_str e))] 500))
  end.

(** [POST /api/flow/node] *)
Definition add_node (flow_manager : option FlowDataManager.t)
    (request : http_request) : M world response :=
  match flow_manager with
  | None => ret not_initialized
  | Some fm =>
      try_except
        (data <- get_json request ;;
         user_id <- lift (py_get data "user_id" (JStr "default_user")) ;;
         node <- lift (py_get data "node" JNull) ;;
         if negb (truthy node) then
           ret (jsonify [("error", JStr "Node data required")] 400)
         else
           success <- with_obj node (FlowDataManager.add_node fm user_id) ;;
           if success : bool then
             ret (jsonify [("message", JStr "Node added successfully")] 200)
           else ret (jsonify [("error", JStr "Failed to add node")] 500))
        (fun e => ret (jsonify [("error", JStr (exn_str e))] 500))
  end.

(** [DELETE /api/flow/node/<user_id>/<node_id>] *)
Definition delete_node (flow_manager : option FlowDataManager.t)
    (user_id node_id : string) : M world response :=
  match flow_manager with
  | None => ret not_initialized
  | Some fm =>
      try_except
        (success <- FlowDataManager.remove_node fm (JStr user_id) node_id ;;
         if success : bool then
           ret (jsonify [("message", JStr "Node deleted successfully")] 200)
         else ret (jsonify [("error", JStr "Failed to delete node")] 500))
        (fun e => ret (jsonify [("error", JStr (exn_str e))] 500))
  end.

(** [DELETE /api/flow/<user_id>] *)
Definition delete_flow (flow_manager : option FlowDataManager.t)
    (user_id : string) : M world response :=
  match flow_manager with
  | None => ret not_initialized
  | Some fm =>
      try_except
        (success <- FlowDataManager.delete_flow_data fm (JStr user_id) ;;
         if success : bool then
           ret (jsonify [("message", JStr "Flow data deleted successfully")] 200)
         else ret (jsonify [("error", JStr "Failed to delete flow data")] 500))
        (fun e => ret (jsonify [("error", JStr (exn_str e))] 500))
  end.

(** ** Vocabulary of the properties *)

(** The payload [load_flow] answers with when it finds nothing. *)
Definition empty_default : response :=
  jsonify [ ("nodes", JList []);
            ("edges", JList []);
            ("theme", JStr "light");
            ("message", JStr "No data found for user") ] 200.

(** The document of [user_id] in the manager's collection. *)
Definition flow_doc (self : FlowDataManager.t) (user_id : string) : doc_ref :=
  (FlowDataManager.collection_name self, user_id).

(** No character of [s] is ['/']. *)
Fixpoint no_slash (s : string) : bool :=
  match s with
  | EmptyString => true
  | String c s' => negb (bool_decide (String c "" = "/")) && no_slash s'
  end.

(** A key that names a document directly in the collection: one path segment,
    not empty and without ['/']. A key with ['/'] is a path to the client,
    which refuses it when it builds the reference or resolves it to a document
    nested below the collection. The keys of a URL path parameter are of this
    kind; a key from a request body need not be. *)
Definition is_document_id (s : string) : bool :=
  negb (bool_decide (s = "")) && no_slash s.

(** The writes among the round trips issued so far. *)
Definition writes_issued (w : world) : list store_call :=
  filter (fun c => is_write c = true) (calls w).

(** The coming [n] round trips are served: none of them raises. *)
Definition served (n : nat) (w : world) : Prop :=
  Forall (fun f => f = None) (take n (faults w)).

(** [o.get(k)] read as a partial function: nothing for a missing key and for
    an object that is no dict. *)
Definition field (k : string) (o : json) : option json :=
  match o with
  | JDict m => m !! k
  | _ => None
  end.

(** The data model's node: a mapping with an [id]. *)
Definition is_node (n : json) : Prop := is_Some (field "id" n).

(** The data model's edge: a mapping with a [source] and a [target]. *)
Definition is_edge (e : json) : Prop :=
  is_Some (field "source" e) /\ is_Some (field "target" e).

(** The node is not the one called [node_id]. *)
Definition id_differs (node_id : string) (n : json) : Prop :=
  field "id" n <> Some (JStr node_id).

(** The edge neither leaves nor enters the node called [node_id]. *)
Definition avoids (node_id : string) (e : json) : Prop :=
  field "source" e <> Some (JStr node_id) /\
  field "target" e <> Some (JStr node_id).

#[global] Instance id_differs_dec node_id n : Decision (id_differs node_id n).
Proof. unfold id_differs. apply _. Defined.

#[global] Instance avoids_dec node_id e : Decision (avoids node_id e).
Proof. unfold avoids. apply _. Defined.

(** A node that holds a mapping under ['data']. *)
Definition has_data_mapping (node : json) : Prop :=
  exists d, field "data" node = Some (JDict d).

(** [node] after [node['data']['created_at'] = now]. *)
Definition stamped (now : string) (node : json) : json :=
  match node with
  | JDict m =>
      match m !! "data" with
      | Some (JDict d) => JDict (<["data" := JDict (<["created_at" := JStr now]> d)]> m)
      | _ => node
      end
  | _ => node
  end.

(** ** A sample canvas *)

Definition sample_world : world :=
  World ∅ 100 "2024-05-01T10:00:00" [] [].

Definition sample_n1 : json :=
  JDict (dict [("id", JStr "n1"); ("data", JDict (dict [("label", JStr "Idea")]))]).

Definition sample_n2 : json :=
  JDict (dict [("id", JStr "n2"); ("data", JDict (dict [("label", JStr "Plan")]))]).

Definition sample_n3 : json :=
  JDict (dict [("id", JStr "n3"); ("data", JDict (dict [("label", JStr "Ship")]))]).

Definition sample_edge : json :=
  JDict (dict [("id", JStr "e1"); ("source", JStr "n1"); ("target", JStr "n2")]).

(** The store after ["alice"] saved two nodes and the edge between them. *)
Definition saved_world : world :=
  (FlowDataManager.save_flow_data FlowDataManager.init (JStr "alice")
     (JList [sample_n1; sample_n2]) (JList [sample_edge]) (JStr "dark")
     sample_world).2.

Definition saved_doc : gmap string json :=
  default ∅ (docs saved_world !! flow_doc FlowDataManager.init "alice").

(** The same store when its next round trip raises. *)
Definition outage (w : world) : world :=
  World (docs w) (server_time w) (local_time w)
        [Some (StoreFailure "503 unavailable")] (calls w).

(** The document [save_flow_data] stores for lists of nodes and of edges when
    the store's clock shows [t]. *)
Definition saved_document (nodes edges : list json) (theme : json) (t : Z)
    : gmap string json :=
  dict [ ("nodes", JList nodes);
         ("edges", JList edges);
         ("theme", theme);
         ("updated_at", JTime t);
         ("node_count", JNum (Z.of_nat (length nodes)));
         ("edge_count", JNum (Z.of_nat (length edges))) ].

(** ** The rest of the module: start-up, the health check, the listing *)

(** The client handle that [initialize_firebase] returns. *)
Inductive firestore_client := FirestoreClient.

(** The module-level [flow_manager]: [FlowDataManager(db)] if [db], else
    [None]. *)
Definition module_flow_manager (db : option firestore_client)
    : option FlowDataManager.t :=
  match db with
  | Some _ => Some FlowDataManager.init
  | None => None
  end.

(** [GET /health] *)
Definition health_check (db : option firestore_client) : M world response :=
  now <- datetime_now_isoformat ;;
  ret (jsonify [ ("status", JStr "healthy");
                 ("firebase_connected",
                  JBool match db with Some _ => true | None => false end);
                 ("timestamp", JStr now) ] 200).

(** [db.collection(name).stream()] as a [for] runs through it: one read of the
    whole collection, logged as a read at the collection itself (the empty
    id), giving each document's id and fields in the store's order. *)
Definition collection_stream (collection : string)
    : M world (list (string * gmap string json)) :=
  round_trip (CallGet (collection, "")) ;;
  gets (fun w =>
          omap (fun kv : doc_ref * gmap string json =>
                  if bool_decide (kv.1.1 = collection)
                  then Some (kv.1.2, kv.2) else None)
               (map_to_list (docs w))).

(** The body of the loop of [list_users]: [users.append({...})] for each
    snapshot. *)
Fixpoint collect_users (snapshots : list (string * gmap string json))
    (users : list json) : M world (list json) :=
  match snapshots with
  | [] => ret users
  | doc :: rest =>
      let data := JDict doc.2 in
      node_count <- lift (py_get data "node_count" (JNum 0)) ;;
      edge_count <- lift (py_get data "edge_count" (JNum 0)) ;;
      theme <- lift (py_get data "theme" (JStr "light")) ;;
      updated_at <- lift (py_get data "updated_at" JNull) ;;
      collect_users rest
        (users ++ [JDict (dict [ ("user_id", JStr doc.1);
                                 ("node_count", node_count);
                                 ("edge_count", edge_count);
                                 ("theme", theme);
                                 ("updated_at", updated_at) ])])
  end.

(** [GET /api/users] *)
Definition list_users (db : option firestore_client) : M world response :=
  match db with
  | None => ret not_initialized
  | Some _ =>
      try_except
        (snapshots <- collection_stream "reactflow_data" ;;
         users <- collect_users snapshots [] ;;
         ret (jsonify [("users", JList users)] 200))
        (fun e => ret (jsonify [("error", JStr (exn_str e))] 500))
  end.

(** [@app.errorhandler(404)] and [@app.errorhandler(500)] *)
Definition not_found : response :=
  jsonify [("error", JStr "Endpoint not found")] 404.

Definition internal_error : response :=
  jsonify [("error", JStr "Internal server error")] 500.

(** ** Vocabulary of the further properties *)

(** The route answers, and with one of the three statuses the module uses. *)
Definition answers (m : M world response) (w : world) : Prop :=
  exists resp w',
    m w = (Ok resp, w') /\
    (status resp = 200 \/ status resp = 400 \/ status resp = 500).

(** The entry [list_users] gives for the document [doc] of [user_id]. *)
Definition user_summary (user_id : string) (doc : gmap string json) : json :=
  JDict (dict [ ("user_id", JStr user_id);
                ("node_count", default (JNum 0) (doc !! "node_count"));
                ("edge_count", default (JNum 0) (doc !! "edge_count"));
                ("theme", default (JStr "light") (doc !! "theme"));
                ("updated_at", default JNull (doc !! "updated_at")) ]).

(** The list a comprehension over the stored value [v] gives. *)
Definition kept (keep : json -> result bool) (v : json) : result (list json) :=
  match py_iter v with
  | Ok l => comprehension keep l
  | Raise e => Raise e
  end.

(** What [load_flow] answers from a stored document that is not empty. *)
Definition load_answer (doc : gmap string json) : response :=
  jsonify [ ("nodes", default (JList []) (doc !! "nodes"));
            ("edges", default (JList []) (doc !! "edges"));
            ("theme", default (JStr "light") (doc !! "theme"));
            ("updated_at", default JNull (doc !! "updated_at"));
            ("node_count", default (JNum 0) (doc !! "node_count"));
            ("edge_count", default (JNum 0) (doc !! "edge_count")) ] 200.

(** A stored canvas that [save_flow_data] did not write: one node has no
    [id], and there is a field of another writer. *)
Definition legacy_world : world :=
  World {[ ("reactflow_data", "carol") :=
             dict [ ("nodes", JList [sample_n1; JDict (dict [("label", JStr "x")])]);
                    ("edges", JList []);
                    ("owner", JStr "carol") ] ]}
        7 "2024-05-02T09:30:00" [] [].

(** The sample store after ["bob"] saved a canvas too. *)
Definition two_users_world : world :=
  (FlowDataManager.save_flow_data FlowDataManager.init (JStr "bob")
     (JList [sample_n3]) (JList []) (JStr "light") saved_world).2.

(** The sample store after [sample_n3] was added to the canvas of ["alice"]. *)
Definition added_world : world :=
  (FlowDataManager.add_node FlowDataManager.init (JStr "alice")
     (saved_world, sample_n3)).2.1.

(** A store whose one document has a theme and nothing else. *)
Definition bare_world : world :=
  World {[ ("reactflow_data", "dave") := dict [("theme", JStr "dark")] ]}
        3 "2024-05-03T08:00:00" [] [].

(** A request body that saves the sample canvas for ["alice"]. *)
Definition sample_body : gmap string json :=
  dict [ ("user_id", JStr "alice");
         ("nodes", JList [sample_n1; sample_n2]);
         ("edges", JList [sample_edge]);
         ("theme", JStr "dark") ].

(** * Properties *)

(** ** Running the data access layer *)

Section Runs.

Variable self : FlowDataManager.t.

Lemma served_next n w : served (S n) w -> next_fault w = None.
Proof.
  unfold served, next_fault. destruct (faults w) as [|[e|] fs]; simpl; try done.
  intros H. by inversion H.
Qed.

Lemma served_after n c w : served (S n) w -> served n (after_call c w).
Proof.
  unfold served, after_call. simpl. destruct (faults w) as [|f fs]; simpl.
  - intros _. by rewrite take_nil.
  - intros H. by inversion H.
Qed.

Lemma save_flow_data_run user_id nodes edges theme w :
  FlowDataManager.save_flow_data self (JStr user_id) (JList nodes) (JList edges)
    theme w =
  match next_fault w with
  | Some _ => (Ok false, after_call (CallSet (flow_doc self user_id)) w)
  | None =>
      (Ok true,
       set_docs (<[flow_doc self user_id :=
                     saved_document nodes edges theme (server_time w)]>)
         (after_call (CallSet (flow_doc self user_id)) w))
  end.
Proof.
  unfold FlowDataManager.save_flow_data, try_except, bind, document, doc_set,
    bind, round_trip, ret, lift. simpl.
  by destruct (next_fault w).
Qed.

Lemma get_flow_data_run user_id w :
  FlowDataManager.get_flow_data self (JStr user_id) w =
  (Ok match next_fault w, docs w !! flow_doc self user_id with
      | None, Some fields => JDict fields
      | _, _ => JNull
      end,
   after_call (CallGet (flow_doc self user_id)) w).
Proof.
  unfold FlowDataManager.get_flow_data, try_except, bind, document, doc_get,
    bind, round_trip, ret, gets. simpl.
  destruct (next_fault w); [reflexivity|]. simpl.
  unfold flow_doc. by destruct (docs w !! _).
Qed.

Lemma delete_flow_data_run user_id w :
  FlowDataManager.delete_flow_data self (JStr user_id) w =
  match next_fault w with
  | Some _ => (Ok false, after_call (CallDelete (flow_doc self user_id)) w)
  | None =>
      (Ok true,
       set_docs (delete (flow_doc self user_id))
         (after_call (CallDelete (flow_doc self user_id)) w))
  end.
Proof.
  unfold FlowDataManager.delete_flow_data, try_except, bind, document,
    doc_delete, bind, round_trip, ret. simpl.
  by destruct (next_fault w).
Qed.

(** The data access layer returns to its caller whatever happens: every
    method ends in a flag or a sentinel. *)
Lemma save_flow_data_returns user_id nodes edges theme w :
  exists b w', FlowDataManager.save_flow_data self user_id nodes edges theme w
               = (Ok b, w').
Proof.
  unfold FlowDataManager.save_flow_data, try_except, bind, document, doc_set,
    bind, round_trip, ret, raise, lift.
  destruct user_id; simpl; eauto.
  destruct (py_len nodes); simpl; eauto.
  destruct (py_len edges); simpl; eauto.
  destruct (next_fault w); simpl; eauto.
Qed.

Lemma get_flow_data_returns user_id w :
  exists r w', FlowDataManager.get_flow_data self user_id w = (Ok r, w').
Proof.
  unfold FlowDataManager.get_flow_data, try_except, bind, document, doc_get,
    bind, round_trip, ret, raise, gets.
  destruct user_id; simpl; eauto.
  destruct (next_fault w); simpl; eauto.
  destruct (docs w !! _); eauto.
Qed.

Lemma truthy_dict_lookup (m : gmap string json) k v :
  m !! k = Some v -> truthy (JDict m) = true.
Proof.
  intros Hk. simpl. rewrite bool_decide_eq_false_2; [done|].
  intros ->. by rewrite lookup_empty in Hk.
Qed.

(** The load route, by what [get_flow_data] hands it. *)
Lemma load_flow_found user_id w w' (doc : gmap string json) :
  FlowDataManager.get_flow_data self (JStr user_id) w = (Ok (JDict doc), w') ->
  truthy (JDict doc) = true ->
  load_flow (Some self) user_id w =
    (Ok (jsonify
           [ ("nodes", default (JList []) (doc !! "nodes"));
             ("edges", default (JList []) (doc !! "edges"));
             ("theme", default (JStr "light") (doc !! "theme"));
             ("updated_at", default JNull (doc !! "updated_at"));
             ("node_count", default (JNum 0) (doc !! "node_count"));
             ("edge_count", default (JNum 0) (doc !! "edge_count")) ] 200),
     w').
Proof.
  intros Hget Htruthy. unfold load_flow, try_except, bind.
  by rewrite Hget, Htruthy.
Qed.

Lemma load_flow_nothing user_id w w' :
  FlowDataManager.get_flow_data self (JStr user_id) w = (Ok JNull, w') ->
  load_flow (Some self) user_id w = (Ok empty_default, w').
Proof.
  intros Hget. unfold load_flow, try_except, bind. by rewrite Hget.
Qed.

End Runs.

(** ** Saving, loading and deleting *)

(** C1. When [save_flow_data] succeeds and the [get_flow_data] that follows it
    returns a document, that document holds the nodes, the edges and the theme
    that were saved, its [node_count] is the number of saved nodes and its
    [edge_count] the number of saved edges; the load route answers 200 with
    these same values. *)
Theorem save_then_load_roundtrip
    (self : FlowDataManager.t) (user_id : string) (nodes edges : list json)
    (theme : json) (w w1 w2 : world) (doc : gmap string json) :
  FlowDataManager.save_flow_data self (JStr user_id) (JList nodes) (JList edges)
    theme w = (Ok true, w1) ->
  FlowDataManager.get_flow_data self (JStr user_id) w1 = (Ok (JDict doc), w2) ->
  doc !! "nodes" = Some (JList nodes) /\
  doc !! "edges" = Some (JList edges) /\
  doc !! "theme" = Some theme /\
  doc !! "node_count" = Some (JNum (Z.of_nat (length nodes))) /\
  doc !! "edge_count" = Some (JNum (Z.of_nat (length edges))) /\
  load_flow (Some self) user_id w1 =
    (Ok (jsonify [ ("nodes", JList nodes);
                   ("edges", JList edges);
                   ("theme", theme);
                   ("updated_at", JTime (server_time w));
                   ("node_count", JNum (Z.of_nat (length nodes)));
                   ("edge_count", JNum (Z.of_nat (length edges))) ] 200),
     w2).
Proof.
  intros Hsave Hget.
  rewrite save_flow_data_run in Hsave.
  destruct (next_fault w); [discriminate|].
  injection Hsave as <-.
  pose proof Hget as Hget'.
  rewrite get_flow_data_run in Hget'.
  injection Hget' as Hdoc _.
  destruct (next_fault _); [discriminate|].
  simpl in Hdoc. rewrite lookup_insert_eq in Hdoc.
  injection Hdoc as Hdoc.
  assert (Hfields :
    doc !! "nodes" = Some (JList nodes) /\
    doc !! "edges" = Some (JList edges) /\
    doc !! "theme" = Some theme /\
    doc !! "updated_at" = Some (JTime (server_time w)) /\
    doc !! "node_count" = Some (JNum (Z.of_nat (length nodes))) /\
    doc !! "edge_count" = Some (JNum (Z.of_nat (length edges)))).
  { subst doc. repeat split; reflexivity. }
  destruct Hfields as (Hn & He & Ht & Hu & Hnc & Hec).
  repeat split; try assumption.
  rewrite (load_flow_found _ _ _ _ _ Hget (truthy_dict_lookup _ _ _ Hn)).
  by rewrite Hn, He, Ht, Hu, Hnc, Hec.
Qed.

(** C5. For a user without a stored document the load route answers 200 with
    the empty default: no nodes, no edges, the theme ["light"]. It is no error
    response, whether or not the read is served. *)
Theorem load_flow_never_saved
    (self : FlowDataManager.t) (user_id : string) (w : world) :
  docs w !! flow_doc self user_id = None ->
  exists w',
    load_flow (Some self) user_id w =
      (Ok (jsonify [ ("nodes", JList []);
                     ("edges", JList []);
                     ("theme", JStr "light");
                     ("message", JStr "No data found for user") ] 200),
       w') /\
    docs w' = docs w.
Proof.
  intros Habsent. exists (after_call (CallGet (flow_doc self user_id)) w).
  split; [|reflexivity].
  apply load_flow_nothing.
  rewrite get_flow_data_run, Habsent. by destruct (next_fault w).
Qed.

(** C6. [get_flow_data] never raises. It returns [None] when the user has no
    document, and it returns the same [None] when the read raises, whatever
    the error and whatever is stored: the caller cannot tell the two apart. *)
Theorem get_flow_data_fails_closed
    (self : FlowDataManager.t) (user_id : string) (w : world) :
  (exists r w', FlowDataManager.get_flow_data self (JStr user_id) w = (Ok r, w')) /\
  (docs w !! flow_doc self user_id = None ->
   (FlowDataManager.get_flow_data self (JStr user_id) w).1 = Ok JNull) /\
  (forall e, next_fault w = Some e ->
   (FlowDataManager.get_flow_data self (JStr user_id) w).1 = Ok JNull).
Proof.
  split; [apply get_flow_data_returns|].
  rewrite get_flow_data_run. simpl. split.
  - intros ->. by destruct (next_fault w).
  - by intros e ->.
Qed.

(** C7. After a [delete_flow_data] that succeeded, loading the same user
    answers with the empty default, whatever was stored before. Deleting for a
    user without a document succeeds like any other served delete. *)
Theorem delete_then_load_empty
    (self : FlowDataManager.t) (user_id : string) (w : world) :
  (forall w1,
     FlowDataManager.delete_flow_data self (JStr user_id) w = (Ok true, w1) ->
     (load_flow (Some self) user_id w1).1 = Ok empty_default) /\
  (docs w !! flow_doc self user_id = None ->
   served 1 w ->
   exists w1,
     FlowDataManager.delete_flow_data self (JStr user_id) w = (Ok true, w1) /\
     docs w1 = docs w).
Proof.
  split.
  - intros w1 Hdel. rewrite delete_flow_data_run in Hdel.
    destruct (next_fault w); [discriminate|].
    injection Hdel as <-.
    erewrite load_flow_nothing; [reflexivity|].
    rewrite get_flow_data_run. simpl.
    rewrite lookup_delete_eq. by destruct (next_fault _).
  - intros Habsent Hserved. rewrite delete_flow_data_run.
    rewrite (served_next _ _ Hserved). eexists. split; [reflexivity|].
    simpl. by apply delete_id.
Qed.

(** ** The save route *)

(** C4. A save request whose [nodes] field, or whose [edges] field, is there
    but is no list is answered 400, and the handler leaves the store as it
    found it: no round trip is issued and every stored document stays. *)
Theorem save_flow_rejects_non_list
    (self : FlowDataManager.t) (data : gmap string json) (w : world) :
  (exists v, data !! "nodes" = Some v /\ isinstance_list v = false) \/
  (exists v, data !! "edges" = Some v /\ isinstance_list v = false) ->
  save_flow (Some self) (Request (Some (JDict data))) w =
    (Ok (jsonify [("error", JStr "Invalid data format")] 400), w).
Proof.
  intros Hshape.
  unfold save_flow, try_except, bind, get_json, lift, py_get, ret. simpl.
  destruct Hshape as [(v & -> & Hv) | (v & -> & Hv)]; simpl; rewrite Hv.
  - reflexivity.
  - by rewrite orb_true_r.
Qed.

(** The save route on a well-shaped body is [save_flow_data] on the fields,
    defaults filled in, followed by the choice of the answer. *)
Lemma save_flow_delegates
    (self : FlowDataManager.t) (data : gmap string json) (ns es : list json)
    (w : world) :
  default (JList []) (data !! "nodes") = JList ns ->
  default (JList []) (data !! "edges") = JList es ->
  save_flow (Some self) (Request (Some (JDict data))) w =
    (success <- FlowDataManager.save_flow_data self
                  (default (JStr "default_user") (data !! "user_id"))
                  (JList ns) (JList es)
                  (default (JStr "light") (data !! "theme")) ;;
     ret (if success : bool then
            jsonify [ ("message", JStr "Flow data saved successfully");
                      ("node_count", JNum (Z.of_nat (length ns)));
                      ("edge_count", JNum (Z.of_nat (length es))) ] 200
          else jsonify [("error", JStr "Failed to save flow data")] 500)) w.
Proof.
  intros Hns Hes.
  unfold save_flow, try_except, bind, get_json, lift, py_get, ret. simpl.
  rewrite Hns, Hes. simpl.
  destruct (save_flow_data_returns self
              (default (JStr "default_user") (data !! "user_id"))
              (JList ns) (JList es)
              (default (JStr "light") (data !! "theme")) w) as (b & w' & ->).
  by destruct b.
Qed.

(** C8. The save handler hands [save_flow_data] the request's fields with the
    defaults in the place of the absent ones: ["default_user"] for [user_id],
    ["light"] for [theme], the empty list for [nodes] and for [edges]. A body
    that is the empty object saves an empty document under ["default_user"]
    with the theme ["light"]. *)
Theorem save_flow_substitutes_defaults
    (self : FlowDataManager.t) (w : world) :
  (forall (data : gmap string json) (ns es : list json),
     default (JList []) (data !! "nodes") = JList ns ->
     default (JList []) (data !! "edges") = JList es ->
     save_flow (Some self) (Request (Some (JDict data))) w =
       (success <- FlowDataManager.save_flow_data self
                     (default (JStr "default_user") (data !! "user_id"))
                     (JList ns) (JList es)
                     (default (JStr "light") (data !! "theme")) ;;
        ret (if success : bool then
               jsonify [ ("message", JStr "Flow data saved successfully");
                         ("node_count", JNum (Z.of_nat (length ns)));
                         ("edge_count", JNum (Z.of_nat (length es))) ] 200
             else jsonify [("error", JStr "Failed to save flow data")] 500)) w) /\
  (served 1 w ->
   exists w',
     save_flow (Some self) (Request (Some (JDict ∅))) w =
       (Ok (jsonify [ ("message", JStr "Flow data saved successfully");
                      ("node_count", JNum 0);
                      ("edge_count", JNum 0) ] 200), w') /\
     docs w' !! flow_doc self "default_user" =
       Some (dict [ ("nodes", JList []);
                    ("edges", JList []);
                    ("theme", JStr "light");
                    ("updated_at", JTime (server_time w));
                    ("node_count", JNum 0);
                    ("edge_count", JNum 0) ])).
Proof.
  split; [intros; by apply save_flow_delegates|].
  intros Hserved.
  rewrite (save_flow_delegates self ∅ [] []) by reflexivity.
  unfold bind. rewrite !lookup_empty. simpl default.
  rewrite save_flow_data_run, (served_next _ _ Hserved).
  eexists. split; [reflexivity|].
  simpl. rewrite lookup_insert_eq. reflexivity.
Qed.

(** ** The add-node route *)

(** C9. The add-node route answers 400, ["Node data required"], when the
    request has no [node] or has one that is falsy, the empty mapping
    included. The data access layer is not called: the store is left as it
    was, with no round trip issued. *)
Theorem add_node_route_requires_node
    (self : FlowDataManager.t) (data : gmap string json) (w : world) :
  (data !! "node" = None \/
   exists v, data !! "node" = Some v /\ truthy v = false) ->
  truthy (JDict ∅) = false /\
  add_node (Some self) (Request (Some (JDict data))) w =
    (Ok (jsonify [("error", JStr "Node data required")] 400), w).
Proof.
  intros Hnode. split; [reflexivity|].
  unfold add_node, try_except, bind, get_json, lift, py_get, ret. simpl.
  destruct Hnode as [-> | (v & -> & Hv)]; simpl; [done|].
  by rewrite Hv.
Qed.

(** ** Removing a node *)

Lemma ne_str_spec (v : json) (s : string) :
  ne_str v s = true <-> v <> JStr s.
Proof.
  destruct v; simpl; try (split; [discriminate|done]).
  rewrite negb_true_iff, bool_decide_eq_false. split; congruence.
Qed.

Lemma keep_node_spec (node_id : string) (n : json) :
  is_node n ->
  FlowDataManager.keep_node node_id n = Ok (bool_decide (id_differs node_id n)).
Proof.
  unfold is_node, FlowDataManager.keep_node, py_getitem.
  destruct n; simpl; try (intros [? ?]; discriminate).
  intros [i Hi]. rewrite Hi. f_equal.
  destruct (ne_str i node_id) eqn:Hne; symmetry.
  - apply bool_decide_eq_true. unfold id_differs. simpl. rewrite Hi.
    apply ne_str_spec in Hne. congruence.
  - apply bool_decide_eq_false. unfold id_differs. simpl. rewrite Hi.
    intros Hd. apply not_true_iff_false in Hne.
    apply Hne, ne_str_spec. congruence.
Qed.

Lemma keep_edge_spec (node_id : string) (e : json) :
  is_edge e ->
  FlowDataManager.keep_edge node_id e = Ok (bool_decide (avoids node_id e)).
Proof.
  unfold is_edge, FlowDataManager.keep_edge, py_getitem.
  destruct e; simpl; try (intros [[? ?] _]; discriminate).
  intros [[s Hs] [t Ht]]. rewrite Hs.
  destruct (ne_str s node_id) eqn:Hsne.
  - rewrite Ht.
    destruct (ne_str t node_id) eqn:Htne; f_equal; symmetry.
    + apply bool_decide_eq_true. unfold avoids. simpl. rewrite Hs, Ht.
      apply ne_str_spec in Hsne, Htne. split; congruence.
    + apply bool_decide_eq_false. unfold avoids. simpl. rewrite Ht.
      intros [_ Hd]. apply not_true_iff_false in Htne.
      apply Htne, ne_str_spec. congruence.
  - f_equal. symmetry. apply bool_decide_eq_false. unfold avoids. simpl.
    rewrite Hs. intros [Hd _]. apply not_true_iff_false in Hsne.
    apply Hsne, ne_str_spec. congruence.
Qed.

(** A comprehension whose test never raises is a filter. *)
Lemma comprehension_filter (keep : json -> result bool) (P : json -> Prop)
    `{!forall x, Decision (P x)} (Q : json -> Prop) (l : list json) :
  (forall x, Q x -> keep x = Ok (bool_decide (P x))) ->
  Forall Q l ->
  comprehension keep l = Ok (filter P l).
Proof.
  intros Hkeep Hl. induction Hl as [|x l Hx _ IH]; [reflexivity|].
  simpl. rewrite (Hkeep x Hx), IH.
  rewrite filter_cons. by case_bool_decide; case_decide.
Qed.

Lemma remove_node_present
    (self : FlowDataManager.t) (user_id node_id : string) (w : world)
    (doc : gmap string json) (ns es : list json) :
  docs w !! flow_doc self user_id = Some doc ->
  doc !! "nodes" = Some (JList ns) ->
  doc !! "edges" = Some (JList es) ->
  Forall is_node ns ->
  Forall is_edge es ->
  served 2 w ->
  FlowDataManager.remove_node self (JStr user_id) node_id w =
    (Ok true,
     set_docs
       (<[flow_doc self user_id :=
            <["updated_at" := JTime (server_time w)]>
              (<["edges" := JList (filter (avoids node_id) es)]>
                 (<["nodes" := JList (filter (id_differs node_id) ns)]> doc))]>)
       (after_call (CallUpdate (flow_doc self user_id))
          (after_call (CallGet (flow_doc self user_id)) w))).
Proof.
  intros Hdoc Hns Hes Hnodes Hedges Hserved.
  unfold FlowDataManager.remove_node, try_except, bind.
  rewrite get_flow_data_run, (served_next _ _ Hserved), Hdoc.
  rewrite (truthy_dict_lookup _ _ _ Hns). unfold lift, py_get.
  rewrite Hns, Hes. simpl.
  rewrite (comprehension_filter _ (id_differs node_id) is_node ns
             (keep_node_spec node_id) Hnodes).
  rewrite (comprehension_filter _ (avoids node_id) is_edge es
             (keep_edge_spec node_id) Hedges).
  unfold doc_update, bind, round_trip, gets, modify, ret.
  rewrite (served_next 0 _ (served_after 1 _ _ Hserved)). simpl.
  unfold flow_doc in *. rewrite Hdoc. reflexivity.
Qed.

Lemma remove_node_absent
    (self : FlowDataManager.t) (user_id node_id : string) (w : world) :
  docs w !! flow_doc self user_id = None ->
  FlowDataManager.remove_node self (JStr user_id) node_id w =
    (Ok false, after_call (CallGet (flow_doc self user_id)) w).
Proof.
  intros Habsent.
  unfold FlowDataManager.remove_node, try_except, bind.
  rewrite get_flow_data_run, Habsent.
  by destruct (next_fault w).
Qed.
(** C2. On a stored document whose [nodes] and [edges] are lists of nodes and
    of edges, with the read and the update served, [remove_node] returns
    success and overwrites [nodes] with exactly the entries whose [id] is not
    [node_id] and [edges] with exactly the entries whose [source] and [target]
    both are not [node_id]. Removing ["n1"] from the nodes [n1; n2] with the one
    edge from [n1] to [n2] leaves the nodes [n2] and no edge. Without a
    document [remove_node] returns failure and writes nothing. *)
Theorem remove_node_filters
    (self : FlowDataManager.t) (user_id : string) (w : world) :
  (forall node_id doc ns es,
     docs w !! flow_doc self user_id = Some doc ->
     doc !! "nodes" = Some (JList ns) ->
     doc !! "edges" = Some (JList es) ->
     Forall is_node ns ->
     Forall is_edge es ->
     served 2 w ->
     exists w' doc',
       FlowDataManager.remove_node self (JStr user_id) node_id w = (Ok true, w') /\
       docs w' !! flow_doc self user_id = Some doc' /\
       doc' !! "nodes" = Some (JList (filter (id_differs node_id) ns)) /\
       doc' !! "edges" = Some (JList (filter (avoids node_id) es))) /\
  (forall doc m1 m2 me,
     docs w !! flow_doc self user_id = Some doc ->
     doc !! "nodes" = Some (JList [JDict m1; JDict m2]) ->
     doc !! "edges" = Some (JList [JDict me]) ->
     m1 !! "id" = Some (JStr "n1") ->
     m2 !! "id" = Some (JStr "n2") ->
     me !! "source" = Some (JStr "n1") ->
     me !! "target" = Some (JStr "n2") ->
     served 2 w ->
     exists w' doc',
       FlowDataManager.remove_node self (JStr user_id) "n1" w = (Ok true, w') /\
       docs w' !! flow_doc self user_id = Some doc' /\
       doc' !! "nodes" = Some (JList [JDict m2]) /\
       doc' !! "edges" = Some (JList [])) /\
  (forall node_id,
     docs w !! flow_doc self user_id = None ->
     exists w',
       FlowDataManager.remove_node self (JStr user_id) node_id w = (Ok false, w') /\
       docs w' = docs w /\
       writes_issued w' = writes_issued w).
Proof.
  assert (Hgeneral : forall node_id doc ns es,
     docs w !! flow_doc self user_id = Some doc ->
     doc !! "nodes" = Some (JList ns) ->
     doc !! "edges" = Some (JList es) ->
     Forall is_node ns ->
     Forall is_edge es ->
     served 2 w ->
     exists w' doc',
       FlowDataManager.remove_node self (JStr user_id) node_id w = (Ok true, w') /\
       docs w' !! flow_doc self user_id = Some doc' /\
       doc' !! "nodes" = Some (JList (filter (id_differs node_id) ns)) /\
       doc' !! "edges" = Some (JList (filter (avoids node_id) es))).
  { intros node_id doc ns es Hdoc Hns Hes Hnodes Hedges Hserved.
    rewrite (remove_node_present self user_id node_id w doc ns es) by assumption.
    eexists. eexists. split; [reflexivity|]. simpl.
    rewrite lookup_insert_eq. split; [reflexivity|].
    split; by simplify_map_eq. }
  split; [exact Hgeneral|]. split.
  - intros doc m1 m2 me Hdoc Hns Hes H1 H2 Hs Ht Hserved.
    destruct (Hgeneral "n1" doc _ _ Hdoc Hns Hes) as (w' & doc' & Hrun & Hd & Hn & He).
    + repeat constructor; unfold is_node; simpl; eauto.
    + repeat constructor; unfold is_edge; simpl; eauto.
    + assumption.
    + exists w', doc'. split; [exact Hrun|]. split; [exact Hd|].
      rewrite Hn, He. split; do 2 f_equal.
      * rewrite filter_cons_False, filter_cons_True, filter_nil; [done| |].
        -- unfold id_differs. simpl. rewrite H2. congruence.
        -- unfold id_differs. simpl. rewrite H1. tauto.
      * rewrite filter_cons_False, filter_nil; [done|].
        unfold avoids. simpl. rewrite Hs. tauto.
  - intros node_id Habsent. rewrite remove_node_absent by assumption.
    eexists. split; [reflexivity|]. split; reflexivity.
Qed.

(** ** Adding a node *)

Lemma stamped_data (now : string) (node : json) (d : gmap string json) :
  field "data" node = Some (JDict d) ->
  field "data" (stamped now node) = Some (JDict (<["created_at" := JStr now]> d)).
Proof.
  destruct node; simpl; try discriminate.
  intros ->. simpl. by rewrite lookup_insert_eq.
Qed.

(** What [add_node] does, case by case: without a mapping under ['data'] it
    stops before any round trip; with one, the node is stamped and a single
    update is sent. *)
Lemma add_node_run
    (self : FlowDataManager.t) (user_id : string) (node : json) (w : world) :
  FlowDataManager.add_node self (JStr user_id) (w, node) =
  match field "data" node with
  | Some (JDict _) =>
      let node' := stamped (local_time w) node in
      let w1 := after_call (CallUpdate (flow_doc self user_id)) w in
      match next_fault w, docs w !! flow_doc self user_id with
      | None, Some doc =>
          (Ok true,
           (set_docs
              (<[flow_doc self user_id :=
                   write_fields (server_time w)
                     [ ("nodes", ArrayUnion [node']);
                       ("updated_at", SERVER_TIMESTAMP) ] doc]>) w1,
            node'))
      | _, _ => (Ok false, (w1, node'))
      end
  | _ => (Ok false, (w, node))
  end.
Proof.
  unfold FlowDataManager.add_node, try_except, bind, on_world, document,
    datetime_now_isoformat, read_obj, write_obj, lift, gets, modify, ret.
  simpl.
  destruct node as [| | | | | |m]; try reflexivity. simpl.
  destruct (m !! "data") as [[| | | | | |d]|] eqn:Hdata; try reflexivity.
  simpl. unfold doc_update, bind, round_trip, gets, modify, ret, raise.
  destruct (next_fault w); [reflexivity|]. simpl.
  unfold flow_doc. by destruct (docs w !! _).
Qed.

Lemma add_node_without_data
    (self : FlowDataManager.t) (user_id node : json) (w : world) :
  ~ has_data_mapping node ->
  FlowDataManager.add_node self user_id (w, node) = (Ok false, (w, node)).
Proof.
  intros Hno.
  destruct user_id as [| | |uid| | |];
    try (unfold FlowDataManager.add_node, try_except, bind, on_world, document,
           raise, ret; reflexivity).
  rewrite add_node_run.
  destruct (field "data" node) as [[| | | | | |d]|] eqn:Hdata; try reflexivity.
  destruct Hno. by exists d.
Qed.

(** C3. A successful [add_node] rewrites two fields of the user's document and
    nothing else: [nodes] becomes the array union of the stored nodes with the
    node, stamped with [created_at] inside its [data] (the node comes last when
    it was not there yet), and [updated_at] is refreshed. Every other field
    stays, so [node_count], [edge_count], [edges] and [theme] keep their stored
    values and [node_count] is not recomputed; other documents stay too. *)
Theorem add_node_frame
    (self : FlowDataManager.t) (user_id : string) (node node' : json)
    (w w' : world) :
  FlowDataManager.add_node self (JStr user_id) (w, node) = (Ok true, (w', node')) ->
  exists doc doc',
    docs w !! flow_doc self user_id = Some doc /\
    docs w' !! flow_doc self user_id = Some doc' /\
    node' = stamped (local_time w) node /\
    doc' !! "nodes" =
      Some (JList (array_union (stored_array doc "nodes") [node'])) /\
    (node' ∉ stored_array doc "nodes" ->
     doc' !! "nodes" = Some (JList (stored_array doc "nodes" ++ [node']))) /\
    doc' !! "updated_at" = Some (JTime (server_time w)) /\
    (forall k, k <> "nodes" -> k <> "updated_at" -> doc' !! k = doc !! k) /\
    doc' !! "node_count" = doc !! "node_count" /\
    doc' !! "edge_count" = doc !! "edge_count" /\
    doc' !! "edges" = doc !! "edges" /\
    doc' !! "theme" = doc !! "theme" /\
    (forall r, r <> flow_doc self user_id -> docs w' !! r = docs w !! r).
Proof.
  intros Hrun. rewrite add_node_run in Hrun.
  destruct (field "data" node) as [[| | | | | |d]|]; try discriminate.
  simpl in Hrun.
  destruct (next_fault w); [discriminate|].
  destruct (docs w !! flow_doc self user_id) as [doc|] eqn:Hdoc; [|discriminate].
  injection Hrun as <- <-.
  exists doc. eexists. split; [reflexivity|]. simpl.
  rewrite lookup_insert_eq. split; [reflexivity|]. split; [reflexivity|].
  unfold write_fields, write_field. simpl.
  assert (Hframe : forall k v1 v2, k <> "nodes" -> k <> "updated_at" ->
            <["updated_at" := v1]> (<["nodes" := v2]> doc) !! k = doc !! k).
  { intros k v1 v2 Hk1 Hk2. by rewrite !lookup_insert_ne. }
  split; [by simplify_map_eq|].
  split.
  { intros Hfresh. rewrite lookup_insert_ne, lookup_insert_eq by done.
    by rewrite bool_decide_eq_false_2. }
  split; [by simplify_map_eq|].
  split; [intros; by apply Hframe|].
  repeat (split; [by apply Hframe|]).
  intros r Hr. by rewrite lookup_insert_ne.
Qed.

(** C10. For a node without a mapping under ['data'], [add_node] returns the
    failure flag and the store sees no round trip, so no write: setting
    [created_at] raises before the update is sent. For a node that has such a
    mapping, and a key that names a document of the collection (so that the
    reference is built and the assignment is reached), the mapping the caller
    holds gets its [created_at] whatever the store then does: also when the
    update raises, in which case the flag is the failure flag and no document
    changes. *)
Theorem add_node_needs_data_mapping
    (self : FlowDataManager.t) (node : json) (w : world) :
  (forall user_id,
     ~ has_data_mapping node ->
     FlowDataManager.add_node self user_id (w, node) = (Ok false, (w, node))) /\
  (forall user_id d,
     is_document_id user_id = true ->
     field "data" node = Some (JDict d) ->
     exists b w' node',
       FlowDataManager.add_node self (JStr user_id) (w, node)
         = (Ok b, (w', node')) /\
       field "data" node' =
         Some (JDict (<["created_at" := JStr (local_time w)]> d)) /\
       (forall e, next_fault w = Some e -> b = false /\ docs w' = docs w)).
Proof.
  split; [intros; by apply add_node_without_data|].
  intros user_id d _ Hdata. rewrite add_node_run, Hdata. simpl.
  destruct (next_fault w) as [e|].
  - eexists _, _, _. split; [reflexivity|].
    split; [by apply stamped_data|]. done.
  - destruct (docs w !! flow_doc self user_id);
      (eexists _, _, _; split; [reflexivity|];
       split; [by apply stamped_data|]; intros; discriminate).
Qed.


(** ** The properties on the sample canvas *)

Lemma save_then_load_roundtrip_witness :
  exists w2,
    FlowDataManager.get_flow_data FlowDataManager.init (JStr "alice") saved_world
      = (Ok (JDict saved_doc), w2) /\
    saved_doc !! "nodes" = Some (JList [sample_n1; sample_n2]) /\
    saved_doc !! "node_count" = Some (JNum 2) /\
    saved_doc !! "edge_count" = Some (JNum 1).
Proof.
  set (r := FlowDataManager.get_flow_data FlowDataManager.init (JStr "alice")
              saved_world).
  assert (Hsave :
    FlowDataManager.save_flow_data FlowDataManager.init (JStr "alice")
      (JList [sample_n1; sample_n2]) (JList [sample_edge]) (JStr "dark")
      sample_world
    = (Ok true, saved_world)) by (vm_compute; reflexivity).
  assert (Hget : r = (Ok (JDict saved_doc), r.2)) by (vm_compute; reflexivity).
  exists r.2. split; [exact Hget|].
  destruct (save_then_load_roundtrip _ _ _ _ _ _ _ _ _ Hsave Hget)
    as (Hn & _ & _ & Hnc & Hec & _).
  split; [exact Hn|]. split; [exact Hnc | exact Hec].
Defined.

Lemma remove_node_filters_witness :
  exists w' doc',
    FlowDataManager.remove_node FlowDataManager.init (JStr "alice") "n1" saved_world
      = (Ok true, w') /\
    docs w' !! flow_doc FlowDataManager.init "alice" = Some doc' /\
    doc' !! "nodes" = Some (JList [sample_n2]) /\
    doc' !! "edges" = Some (JList []).
Proof.
  destruct (remove_node_filters FlowDataManager.init "alice" saved_world)
    as (_ & Hexample & _).
  eapply (Hexample saved_doc); try (vm_compute; reflexivity).
  unfold served. simpl. constructor.
Defined.

Lemma add_node_frame_witness :
  let r := FlowDataManager.add_node FlowDataManager.init (JStr "alice")
             (saved_world, sample_n3) in
  exists doc',
    docs r.2.1 !! flow_doc FlowDataManager.init "alice" = Some doc' /\
    doc' !! "node_count" = Some (JNum 2) /\
    doc' !! "nodes" = Some (JList [sample_n1; sample_n2; r.2.2]).
Proof.
  intros r.
  assert (Hrun :
    FlowDataManager.add_node FlowDataManager.init (JStr "alice")
      (saved_world, sample_n3) = (Ok true, (r.2.1, r.2.2)))
    by (vm_compute; reflexivity).
  destruct (add_node_frame _ _ _ _ _ _ Hrun)
    as (doc & doc' & Hdoc & Hdoc' & _ & _ & Happend & _ & _ & Hcount & _).
  exists doc'. split; [exact Hdoc'|].
  assert (Hsaved : doc = saved_doc).
  { assert (Hlook : docs saved_world !! flow_doc FlowDataManager.init "alice"
                    = Some saved_doc) by (vm_compute; reflexivity).
    congruence. }
  subst doc. split.
  - rewrite Hcount. vm_compute. reflexivity.
  - rewrite Happend; [vm_compute; reflexivity|].
    vm_compute. intros Hin.
    repeat (apply elem_of_cons in Hin as [Hin|Hin]; [discriminate|]).
    by apply elem_of_nil in Hin.
Defined.

Lemma save_flow_rejects_non_list_witness :
  save_flow (Some FlowDataManager.init)
    (Request (Some (JDict (dict [("nodes", sample_n1)])))) saved_world
  = (Ok (jsonify [("error", JStr "Invalid data format")] 400), saved_world).
Proof.
  apply save_flow_rejects_non_list.
  left. exists sample_n1. split; reflexivity.
Defined.

Lemma load_flow_never_saved_witness :
  exists w',
    load_flow (Some FlowDataManager.init) "bob" saved_world =
      (Ok (jsonify [ ("nodes", JList []);
                     ("edges", JList []);
                     ("theme", JStr "light");
                     ("message", JStr "No data found for user") ] 200),
       w') /\
    docs w' = docs saved_world.
Proof.
  apply load_flow_never_saved. vm_compute. reflexivity.
Defined.

Lemma get_flow_data_fails_closed_witness :
  (FlowDataManager.get_flow_data FlowDataManager.init (JStr "bob") saved_world).1
    = Ok JNull /\
  (FlowDataManager.get_flow_data FlowDataManager.init (JStr "alice")
     (outage saved_world)).1 = Ok JNull.
Proof.
  split.
  - apply (get_flow_data_fails_closed FlowDataManager.init "bob" saved_world).
    vm_compute. reflexivity.
  - apply (get_flow_data_fails_closed FlowDataManager.init "alice"
             (outage saved_world)) with (e := StoreFailure "503 unavailable").
    reflexivity.
Defined.

Lemma delete_then_load_empty_witness :
  (load_flow (Some FlowDataManager.init) "alice"
     (FlowDataManager.delete_flow_data FlowDataManager.init (JStr "alice")
        saved_world).2).1 = Ok empty_default /\
  exists w1,
    FlowDataManager.delete_flow_data FlowDataManager.init (JStr "bob") saved_world
      = (Ok true, w1) /\
    docs w1 = docs saved_world.
Proof.
  split.
  - apply (delete_then_load_empty FlowDataManager.init "alice" saved_world).
    vm_compute. reflexivity.
  - apply (delete_then_load_empty FlowDataManager.init "bob" saved_world).
    + vm_compute. reflexivity.
    + unfold served. simpl. constructor.
Defined.

Lemma save_flow_substitutes_defaults_witness :
  exists w',
    save_flow (Some FlowDataManager.init) (Request (Some (JDict ∅))) sample_world =
      (Ok (jsonify [ ("message", JStr "Flow data saved successfully");
                     ("node_count", JNum 0);
                     ("edge_count", JNum 0) ] 200), w') /\
    docs w' !! flow_doc FlowDataManager.init "default_user" =
      Some (dict [ ("nodes", JList []);
                   ("edges", JList []);
                   ("theme", JStr "light");
                   ("updated_at", JTime 100);
                   ("node_count", JNum 0);
                   ("edge_count", JNum 0) ]).
Proof.
  apply (save_flow_substitutes_defaults FlowDataManager.init sample_world).
  unfold served. simpl. constructor.
Defined.

Lemma add_node_route_requires_node_witness :
  add_node (Some FlowDataManager.init)
    (Request (Some (JDict (dict [("user_id", JStr "alice"); ("node", JDict ∅)]))))
    saved_world
  = (Ok (jsonify [("error", JStr "Node data required")] 400), saved_world).
Proof.
  apply add_node_route_requires_node.
  right. exists (JDict ∅). split; reflexivity.
Defined.

Lemma add_node_needs_data_mapping_witness :
  FlowDataManager.add_node FlowDataManager.init (JStr "alice")
    (saved_world, JDict (dict [("id", JStr "n3")]))
  = (Ok false, (saved_world, JDict (dict [("id", JStr "n3")]))) /\
  exists w' node',
    FlowDataManager.add_node FlowDataManager.init (JStr "alice")
      (outage saved_world, sample_n3) = (Ok false, (w', node')) /\
    field "data" node' =
      Some (JDict (dict [ ("label", JStr "Ship");
                          ("created_at", JStr "2024-05-01T10:00:00") ])) /\
    docs w' = docs saved_world.
Proof.
  split.
  - apply add_node_needs_data_mapping.
    intros [d Hd]. vm_compute in Hd. discriminate.
  - destruct (add_node_needs_data_mapping FlowDataManager.init sample_n3
                (outage saved_world)) as (_ & Hstamp).
    destruct (Hstamp "alice" (dict [("label", JStr "Ship")]) eq_refl eq_refl)
      as (b & w' & node' & Hrun & Hdata & Hfault).
    destruct (Hfault (StoreFailure "503 unavailable") eq_refl) as (-> & Hdocs).
    exists w', node'. split; [exact Hrun|]. split; [|exact Hdocs].
    rewrite Hdata. vm_compute. reflexivity.
Defined.

(** * Further properties of the module *)

(** ** What every method of the data access layer does *)

Ltac run_monad :=
  cbv beta iota zeta delta
    [try_except bind lift ret raise gets modify on_world read_obj write_obj
     with_obj document doc_set doc_get doc_delete doc_update round_trip
     datetime_now_isoformat get_json] in *;
  simpl in *.

Ltac case_run :=
  repeat (match goal with
          | |- context [match ?x with _ => _ end] => destruct x eqn:?
          end; simpl in *; try discriminate).

(** The analysis of [remove_node] on a string key: the read, the two
    comprehensions, then the update. *)
Lemma remove_node_run self user_id node_id w :
  FlowDataManager.remove_node self (JStr user_id) node_id w =
  let w1 := after_call (CallGet (flow_doc self user_id)) w in
  match next_fault w, docs w !! flow_doc self user_id with
  | None, Some doc =>
      if truthy (JDict doc) then
        match kept (FlowDataManager.keep_node node_id)
                (default (JList []) (doc !! "nodes")) with
        | Ok ns' =>
            match kept (FlowDataManager.keep_edge node_id)
                    (default (JList []) (doc !! "edges")) with
            | Ok es' =>
                match next_fault w1 with
                | None =>
                    (Ok true,
                     set_docs
                       (<[flow_doc self user_id :=
                            <["updated_at" := JTime (server_time w)]>
                              (<["edges" := JList es']>
                                 (<["nodes" := JList ns']> doc))]>)
                       (after_call (CallUpdate (flow_doc self user_id)) w1))
                | Some _ =>
                    (Ok false, after_call (CallUpdate (flow_doc self user_id)) w1)
                end
            | Raise _ => (Ok false, w1)
            end
        | Raise _ => (Ok false, w1)
        end
      else (Ok false, w1)
  | _, _ => (Ok false, w1)
  end.
Proof.
  unfold FlowDataManager.remove_node, try_except at 1, bind at 1.
  rewrite get_flow_data_run.
  destruct (next_fault w) as [e|]; [reflexivity|].
  destruct (docs w !! flow_doc self user_id) as [doc|] eqn:Hdoc; [|reflexivity].
  destruct (truthy (JDict doc)) eqn:Htruthy; [|reflexivity].
  cbv zeta. cbn [negb]. unfold kept, py_get, lift, bind.
  destruct (py_iter (default (JList []) (doc !! "nodes"))) as [ns|]; [|reflexivity].
  destruct (comprehension _ ns) as [ns'|]; [|reflexivity].
  destruct (py_iter (default (JList []) (doc !! "edges"))) as [es|]; [|reflexivity].
  destruct (comprehension _ es) as [es'|]; [|reflexivity].
  unfold document, doc_update, bind, round_trip, gets, modify, ret, raise.
  destruct (next_fault (after_call _ w)); [reflexivity|].
  simpl. unfold flow_doc in *. rewrite Hdoc. reflexivity.
Qed.

Lemma remove_node_not_a_key self user_id node_id w :
  (forall s, user_id <> JStr s) ->
  FlowDataManager.remove_node self user_id node_id w = (Ok false, w).
Proof.
  intros Hkey. unfold FlowDataManager.remove_node, FlowDataManager.get_flow_data.
  run_monad. destruct user_id; try reflexivity. by destruct (Hkey s).
Qed.

Lemma add_node_not_a_key self user_id node w :
  (forall s, user_id <> JStr s) ->
  FlowDataManager.add_node self user_id (w, node) = (Ok false, (w, node)).
Proof.
  intros Hkey. unfold FlowDataManager.add_node.
  run_monad. destruct user_id; try reflexivity. by destruct (Hkey s).
Qed.

Lemma json_key_cases (user_id : json) :
  (exists s, user_id = JStr s) \/ (forall s, user_id <> JStr s).
Proof. destruct user_id; try (right; congruence). left. by eexists. Qed.

(** X1. No method of the data access layer raises to its caller: for every
    key, every payload and every state of the store, [save_flow_data],
    [delete_flow_data], [add_node] and [remove_node] return a flag. *)
Theorem data_access_never_raises
    (self : FlowDataManager.t) (user_id nodes edges theme node : json)
    (node_id : string) (w : world) :
  (exists b w', FlowDataManager.save_flow_data self user_id nodes edges theme w
                = (Ok b, w')) /\
  (exists b w', FlowDataManager.delete_flow_data self user_id w = (Ok b, w')) /\
  (exists b s', FlowDataManager.add_node self user_id (w, node) = (Ok b, s')) /\
  (exists b w', FlowDataManager.remove_node self user_id node_id w = (Ok b, w')).
Proof.
  split; [apply save_flow_data_returns|].
  split.
  { unfold FlowDataManager.delete_flow_data. run_monad.
    destruct user_id; simpl; eauto. destruct (next_fault w); simpl; eauto. }
  destruct (json_key_cases user_id) as [[s ->]|Hkey].
  - split.
    + rewrite add_node_run. case_run; eauto.
    + rewrite remove_node_run. cbv zeta. case_run; eauto.
  - rewrite add_node_not_a_key, remove_node_not_a_key by assumption.
    split; eauto.
Qed.

(** X2. A method that returns the failure flag has changed no stored document:
    each write of the data access layer happens entirely or not at all. *)
Theorem failure_changes_no_document
    (self : FlowDataManager.t) (user_id : json) (w w' : world) :
  (forall nodes edges theme,
     FlowDataManager.save_flow_data self user_id nodes edges theme w
       = (Ok false, w') -> docs w' = docs w) /\
  (FlowDataManager.delete_flow_data self user_id w = (Ok false, w') ->
   docs w' = docs w) /\
  (forall node node',
     FlowDataManager.add_node self user_id (w, node) = (Ok false, (w', node')) ->
     docs w' = docs w) /\
  (forall node_id,
     FlowDataManager.remove_node self user_id node_id w = (Ok false, w') ->
     docs w' = docs w).
Proof.
  split; [|split; [|split]].
  - intros nodes edges theme. unfold FlowDataManager.save_flow_data. run_monad.
    destruct user_id; simpl; try (intros [= <-]; reflexivity).
    destruct (py_len nodes); simpl; try (intros [= <-]; reflexivity).
    destruct (py_len edges); simpl; try (intros [= <-]; reflexivity).
    destruct (next_fault w); simpl; intros [= <-]; reflexivity.
  - unfold FlowDataManager.delete_flow_data. run_monad.
    destruct user_id; simpl; try (intros [= <-]; reflexivity).
    destruct (next_fault w); simpl; intros [= <-]; reflexivity.
  - intros node node'.
    destruct (json_key_cases user_id) as [[s ->]|Hkey].
    + rewrite add_node_run. case_run; intros [= <- <-]; reflexivity.
    + rewrite add_node_not_a_key by assumption. by intros [= <- <-].
  - intros node_id.
    destruct (json_key_cases user_id) as [[s ->]|Hkey].
    + rewrite remove_node_run. cbv zeta. case_run; intros [= <-]; reflexivity.
    + rewrite remove_node_not_a_key by assumption. by intros [= <-].
Qed.

(** X3. The methods write to the document of their own key only: whatever
    [save_flow_data], [delete_flow_data], [add_node] and [remove_node] do for
    one user, the document of every other key is what it was. *)
Theorem other_documents_untouched
    (self : FlowDataManager.t) (user_id : string) (w w' : world) (b : bool)
    (r : doc_ref) :
  r <> flow_doc self user_id ->
  (forall nodes edges theme,
     FlowDataManager.save_flow_data self (JStr user_id) nodes edges theme w
       = (Ok b, w') -> docs w' !! r = docs w !! r) /\
  (FlowDataManager.delete_flow_data self (JStr user_id) w = (Ok b, w') ->
   docs w' !! r = docs w !! r) /\
  (forall node node',
     FlowDataManager.add_node self (JStr user_id) (w, node) = (Ok b, (w', node')) ->
     docs w' !! r = docs w !! r) /\
  (forall node_id,
     FlowDataManager.remove_node self (JStr user_id) node_id w = (Ok b, w') ->
     docs w' !! r = docs w !! r).
Proof.
  intros Hother. split; [|split; [|split]].
  - intros nodes edges theme. unfold FlowDataManager.save_flow_data. run_monad.
    destruct (py_len nodes); simpl; try (intros [= <- <-]; reflexivity).
    destruct (py_len edges); simpl; try (intros [= <- <-]; reflexivity).
    destruct (next_fault w); simpl; intros [= <- <-]; simpl; [reflexivity|].
    by rewrite lookup_insert_ne.
  - rewrite delete_flow_data_run.
    destruct (next_fault w); intros [= <- <-]; simpl; [reflexivity|].
    by rewrite lookup_delete_ne.
  - intros node node'. rewrite add_node_run.
    case_run; intros [= <- <- <-]; simpl; try reflexivity.
    by rewrite lookup_insert_ne.
  - intros node_id. rewrite remove_node_run. cbv zeta.
    case_run; intros [= <- <-]; simpl; try reflexivity.
    by rewrite lookup_insert_ne.
Qed.

(** ** More on removing a node *)

Lemma served_le n m w : (n <= m)%nat -> served m w -> served n w.
Proof.
  unfold served. intros Hle Hm.
  replace n with (n `min` m)%nat by lia.
  rewrite <- take_take. by apply Forall_take.
Qed.

Lemma Forall_filter_keeps (P Q : json -> Prop) `{!forall x, Decision (Q x)}
    (l : list json) :
  Forall P l -> Forall P (filter Q l).
Proof.
  rewrite !Forall_forall. intros Hl x Hx.
  apply list_elem_of_filter in Hx as [_ Hx]. by apply Hl.
Qed.

Lemma served_set_docs n f w : served n (set_docs f w) <-> served n w.
Proof. reflexivity. Qed.

Lemma kept_nodes node_id ns :
  Forall is_node ns ->
  kept (FlowDataManager.keep_node node_id) (JList ns)
  = Ok (filter (id_differs node_id) ns).
Proof.
  intros Hns. unfold kept. simpl.
  apply (comprehension_filter _ (id_differs node_id) is_node);
    [apply keep_node_spec | exact Hns].
Qed.

Lemma kept_edges node_id es :
  Forall is_edge es ->
  kept (FlowDataManager.keep_edge node_id) (JList es)
  = Ok (filter (avoids node_id) es).
Proof.
  intros Hes. unfold kept. simpl.
  apply (comprehension_filter _ (avoids node_id) is_edge);
    [apply keep_edge_spec | exact Hes].
Qed.

(** A comprehension stops at the first element whose test raises. *)
Lemma comprehension_raises (keep : json -> result bool) (l : list json) x :
  x ∈ l ->
  (exists e, keep x = Raise e) ->
  exists e, comprehension keep l = Raise e.
Proof.
  intros Hin [e He]. induction Hin as [x l|x y l _ IH]; simpl.
  - rewrite He. eauto.
  - destruct (keep y); [|eauto].
    destruct (IH He) as [e' ->]. eauto.
Qed.

Lemma keep_node_raises node_id n :
  ~ is_node n -> exists e, FlowDataManager.keep_node node_id n = Raise e.
Proof.
  unfold is_node, FlowDataManager.keep_node, py_getitem.
  destruct n; simpl; eauto.
  intros Hno. destruct (m !! "id") eqn:Hid; eauto.
  destruct Hno. eauto.
Qed.

Lemma keep_edge_raises node_id e :
  field "source" e = None ->
  exists x, FlowDataManager.keep_edge node_id e = Raise x.
Proof.
  unfold FlowDataManager.keep_edge, py_getitem.
  destruct e; simpl; eauto.
  intros ->. eauto.
Qed.

(** X4. A [remove_node] that succeeds rewrites [nodes], [edges] and
    [updated_at] and no other field of the document: [node_count] and
    [edge_count] keep the values they had, whatever was removed, and so do
    [theme] and any field another writer put there. *)
Theorem remove_node_keeps_other_fields
    (self : FlowDataManager.t) (user_id node_id : string) (w w' : world) :
  FlowDataManager.remove_node self (JStr user_id) node_id w = (Ok true, w') ->
  exists doc doc',
    docs w !! flow_doc self user_id = Some doc /\
    docs w' !! flow_doc self user_id = Some doc' /\
    (forall k, k <> "nodes" -> k <> "edges" -> k <> "updated_at" ->
               doc' !! k = doc !! k) /\
    doc' !! "node_count" = doc !! "node_count" /\
    doc' !! "edge_count" = doc !! "edge_count" /\
    doc' !! "theme" = doc !! "theme" /\
    doc' !! "updated_at" = Some (JTime (server_time w)).
Proof.
  rewrite remove_node_run. cbv zeta.
  destruct (next_fault w); [discriminate|].
  destruct (docs w !! flow_doc self user_id) as [doc|]; [|discriminate].
  destruct (truthy (JDict doc)); [|discriminate].
  destruct (kept _ _) as [ns'|]; [|discriminate].
  destruct (kept _ _) as [es'|]; [|discriminate].
  destruct (next_fault _); [discriminate|].
  intros [= <-]. exists doc. eexists. split; [reflexivity|]. simpl.
  rewrite lookup_insert_eq. split; [reflexivity|].
  assert (Hframe : forall k, k <> "nodes" -> k <> "edges" -> k <> "updated_at" ->
            <["updated_at" := JTime (server_time w)]>
              (<["edges" := JList es']> (<["nodes" := JList ns']> doc)) !! k
            = doc !! k).
  { intros k H1 H2 H3. by rewrite !lookup_insert_ne. }
  split; [exact Hframe|].
  repeat (split; [by apply Hframe|]).
  by rewrite lookup_insert_eq.
Qed.

(** X5. After [remove_node] succeeded on a document of nodes and edges, no
    stored node has the removed [id] and no stored edge leaves or enters it;
    the entries that stay keep their order. *)
Theorem remove_node_cleans_references
    (self : FlowDataManager.t) (user_id node_id : string) (w : world)
    (doc : gmap string json) (ns es : list json) :
  docs w !! flow_doc self user_id = Some doc ->
  doc !! "nodes" = Some (JList ns) ->
  doc !! "edges" = Some (JList es) ->
  Forall is_node ns ->
  Forall is_edge es ->
  served 2 w ->
  exists w' doc' ns' es',
    FlowDataManager.remove_node self (JStr user_id) node_id w = (Ok true, w') /\
    docs w' !! flow_doc self user_id = Some doc' /\
    doc' !! "nodes" = Some (JList ns') /\
    doc' !! "edges" = Some (JList es') /\
    Forall (fun n => field "id" n <> Some (JStr node_id)) ns' /\
    Forall (fun e => field "source" e <> Some (JStr node_id) /\
                     field "target" e <> Some (JStr node_id)) es' /\
    sublist ns' ns /\
    sublist es' es.
Proof.
  intros Hdoc Hns Hes Hnodes Hedges Hserved.
  rewrite (remove_node_present self user_id node_id w doc ns es) by assumption.
  eexists _, _, (filter (id_differs node_id) ns), (filter (avoids node_id) es).
  split; [reflexivity|]. simpl. rewrite lookup_insert_eq.
  split; [reflexivity|].
  split; [by simplify_map_eq|]. split; [by simplify_map_eq|].
  split; [|split; [|split]].
  - apply Forall_forall. intros n Hn. by apply list_elem_of_filter in Hn as [Hn _].
  - apply Forall_forall. intros e He. by apply list_elem_of_filter in He as [He _].
  - apply sublist_filter.
  - apply sublist_filter.
Qed.

(** X6. Removing the same node a second time succeeds again and leaves the
    two arrays as the first removal left them. *)
Theorem remove_node_twice
    (self : FlowDataManager.t) (user_id node_id : string) (w : world)
    (doc : gmap string json) (ns es : list json) :
  docs w !! flow_doc self user_id = Some doc ->
  doc !! "nodes" = Some (JList ns) ->
  doc !! "edges" = Some (JList es) ->
  Forall is_node ns ->
  Forall is_edge es ->
  served 4 w ->
  exists w1 w2 doc1 doc2,
    FlowDataManager.remove_node self (JStr user_id) node_id w = (Ok true, w1) /\
    FlowDataManager.remove_node self (JStr user_id) node_id w1 = (Ok true, w2) /\
    docs w1 !! flow_doc self user_id = Some doc1 /\
    docs w2 !! flow_doc self user_id = Some doc2 /\
    doc2 !! "nodes" = doc1 !! "nodes" /\
    doc2 !! "edges" = doc1 !! "edges".
Proof.
  intros Hdoc Hns Hes Hnodes Hedges Hserved.
  assert (Hserved0 : served 2 w) by (apply (served_le 2 4); [lia|assumption]).
  pose proof (remove_node_present self user_id node_id w doc ns es
                Hdoc Hns Hes Hnodes Hedges Hserved0) as Hrun1.
  set (doc1 := <["updated_at" := JTime (server_time w)]>
                 (<["edges" := JList (filter (avoids node_id) es)]>
                    (<["nodes" := JList (filter (id_differs node_id) ns)]> doc)))
    in Hrun1.
  set (w1 := set_docs _ _) in Hrun1.
  assert (Hdoc1 : docs w1 !! flow_doc self user_id = Some doc1).
  { subst w1. simpl. by rewrite lookup_insert_eq. }
  assert (Hns1 : doc1 !! "nodes" = Some (JList (filter (id_differs node_id) ns))).
  { subst doc1. by simplify_map_eq. }
  assert (Hes1 : doc1 !! "edges" = Some (JList (filter (avoids node_id) es))).
  { subst doc1. by simplify_map_eq. }
  assert (Hserved1 : served 2 w1).
  { subst w1. apply served_set_docs.
    by apply (served_after 2), (served_after 3). }
  pose proof (remove_node_present self user_id node_id w1 doc1 _ _ Hdoc1 Hns1 Hes1
                (Forall_filter_keeps _ _ _ Hnodes)
                (Forall_filter_keeps _ _ _ Hedges) Hserved1) as Hrun2.
  eexists w1, _, doc1, _. split; [exact Hrun1|]. split; [exact Hrun2|].
  split; [exact Hdoc1|]. simpl. rewrite lookup_insert_eq.
  split; [reflexivity|].
  rewrite Hns1, Hes1. split.
  - rewrite lookup_insert_ne, lookup_insert_ne, lookup_insert_eq by done.
    do 2 f_equal. apply list_filter_filter_l. tauto.
  - rewrite lookup_insert_ne, lookup_insert_eq by done.
    do 2 f_equal. apply list_filter_filter_l. tauto.
Qed.

(** X7. One malformed entry blocks the removal: when a stored node has no
    [id], or a stored edge no [source], [remove_node] returns the failure flag
    after its read, sends no update and leaves the document as it is, and
    the delete-node route answers 500. *)
Theorem remove_node_malformed_entry
    (self : FlowDataManager.t) (user_id node_id : string) (w : world)
    (doc : gmap string json) (ns es : list json) :
  docs w !! flow_doc self user_id = Some doc ->
  doc !! "nodes" = Some (JList ns) ->
  doc !! "edges" = Some (JList es) ->
  served 1 w ->
  (exists n, n ∈ ns /\ ~ is_node n) \/
  (exists e, e ∈ es /\ field "source" e = None) ->
  FlowDataManager.remove_node self (JStr user_id) node_id w
    = (Ok false, after_call (CallGet (flow_doc self user_id)) w) /\
  delete_node (Some self) user_id node_id w
    = (Ok (jsonify [("error", JStr "Failed to delete node")] 500),
       after_call (CallGet (flow_doc self user_id)) w).
Proof.
  intros Hdoc Hns Hes Hserved Hbad.
  assert (Hrun : FlowDataManager.remove_node self (JStr user_id) node_id w
                 = (Ok false, after_call (CallGet (flow_doc self user_id)) w)).
  { rewrite remove_node_run. cbv zeta.
    rewrite (served_next _ _ Hserved), Hdoc, (truthy_dict_lookup _ _ _ Hns).
    rewrite Hns, Hes. simpl. unfold kept. simpl.
    destruct Hbad as [(n & Hin & Hn) | (e & Hin & He)].
    - destruct (comprehension_raises (FlowDataManager.keep_node node_id) ns n Hin
                  (keep_node_raises node_id n Hn)) as [x ->].
      reflexivity.
    - destruct (comprehension (FlowDataManager.keep_node node_id) ns);
        [|reflexivity].
      destruct (comprehension_raises (FlowDataManager.keep_edge node_id) es e Hin
                  (keep_edge_raises node_id e He)) as [x ->].
      reflexivity. }
  split; [exact Hrun|].
  unfold delete_node, try_except, bind. by rewrite Hrun.
Qed.

(** X8. On a document that is not empty and has neither a [nodes] nor an
    [edges] field, [remove_node] succeeds and writes both as empty lists. *)
Theorem remove_node_missing_arrays
    (self : FlowDataManager.t) (user_id node_id : string) (w : world)
    (doc : gmap string json) :
  docs w !! flow_doc self user_id = Some doc ->
  doc <> ∅ ->
  doc !! "nodes" = None ->
  doc !! "edges" = None ->
  served 2 w ->
  exists w' doc',
    FlowDataManager.remove_node self (JStr user_id) node_id w = (Ok true, w') /\
    docs w' !! flow_doc self user_id = Some doc' /\
    doc' !! "nodes" = Some (JList []) /\
    doc' !! "edges" = Some (JList []).
Proof.
  intros Hdoc Hne Hns Hes Hserved.
  rewrite remove_node_run. cbv zeta.
  rewrite (served_next _ _ Hserved), Hdoc, Hns, Hes. simpl.
  rewrite bool_decide_eq_false_2 by assumption. simpl.
  rewrite (served_next 0 _ (served_after 1 _ _ Hserved)).
  eexists _, _. split; [reflexivity|]. simpl. rewrite lookup_insert_eq.
  split; [reflexivity|]. split; by simplify_map_eq.
Qed.

(** ** More on the load route *)

(** X9. With the manager in place the load route answers 200 in every state
    of the store and for every user, and it only reads: the stored documents
    and the writes issued are what they were. *)
Theorem load_flow_always_200_read_only
    (self : FlowDataManager.t) (user_id : string) (w : world) :
  exists answer w',
    load_flow (Some self) user_id w = (Ok (Response answer 200), w') /\
    docs w' = docs w /\
    writes_issued w' = writes_issued w.
Proof.
  unfold load_flow, try_except, bind. rewrite get_flow_data_run.
  destruct (next_fault w); [by eexists _, _|].
  destruct (docs w !! flow_doc self user_id) as [doc|]; [|by eexists _, _].
  destruct (truthy (JDict doc)); by eexists _, _.
Qed.

(** X10. When the read raises, the load route answers with the empty default
    and status 200 even though a document is stored: an outage looks like a
    user without data. *)
Theorem load_flow_outage_looks_empty
    (self : FlowDataManager.t) (user_id : string) (w : world)
    (doc : gmap string json) (e : exn) :
  docs w !! flow_doc self user_id = Some doc ->
  next_fault w = Some e ->
  load_flow (Some self) user_id w
    = (Ok empty_default, after_call (CallGet (flow_doc self user_id)) w).
Proof.
  intros _ Hfault. apply load_flow_nothing.
  by rewrite get_flow_data_run, Hfault.
Qed.

(** X11. From a stored document the load route returns six fields and no
    other: each is the stored value, or its default when the document lacks
    it, so a field some other writer stored is never sent. A stored document
    without any field is answered like a missing one. *)
Theorem load_flow_projection
    (self : FlowDataManager.t) (user_id : string) (w : world)
    (doc : gmap string json) :
  docs w !! flow_doc self user_id = Some doc ->
  served 1 w ->
  (doc <> ∅ ->
   exists m,
     (load_flow (Some self) user_id w).1 = Ok (Response (JDict m) 200) /\
     m !! "nodes" = Some (default (JList []) (doc !! "nodes")) /\
     m !! "edges" = Some (default (JList []) (doc !! "edges")) /\
     m !! "theme" = Some (default (JStr "light") (doc !! "theme")) /\
     m !! "updated_at" = Some (default JNull (doc !! "updated_at")) /\
     m !! "node_count" = Some (default (JNum 0) (doc !! "node_count")) /\
     m !! "edge_count" = Some (default (JNum 0) (doc !! "edge_count")) /\
     (forall k, k ∉ ["nodes"; "edges"; "theme"; "updated_at"; "node_count";
                     "edge_count"] -> m !! k = None)) /\
  (doc = ∅ -> (load_flow (Some self) user_id w).1 = Ok empty_default).
Proof.
  intros Hdoc Hserved.
  assert (Hget : FlowDataManager.get_flow_data self (JStr user_id) w
                 = (Ok (JDict doc), after_call (CallGet (flow_doc self user_id)) w)).
  { by rewrite get_flow_data_run, (served_next _ _ Hserved), Hdoc. }
  split.
  - intros Hne.
    rewrite (load_flow_found self user_id w _ doc Hget).
    2:{ simpl. by rewrite bool_decide_eq_false_2. }
    eexists. split; [reflexivity|].
    unfold dict. simpl.
    repeat (split; [by simplify_map_eq|]).
    intros k Hk.
    repeat (rewrite lookup_insert_ne;
            [|intros <-; apply Hk; set_solver]).
    apply lookup_empty.
  - intros ->. unfold load_flow, try_except, bind. by rewrite Hget.
Qed.

(** ** More on the save route *)

(** Loading a document that [save_flow_data] wrote. *)
Lemma load_saved_document
    (self : FlowDataManager.t) (user_id : string) (ns es : list json)
    (theme : json) (t : Z) (w : world) :
  docs w !! flow_doc self user_id = Some (saved_document ns es theme t) ->
  served 1 w ->
  load_flow (Some self) user_id w =
    (Ok (jsonify [ ("nodes", JList ns);
                   ("edges", JList es);
                   ("theme", theme);
                   ("updated_at", JTime t);
                   ("node_count", JNum (Z.of_nat (length ns)));
                   ("edge_count", JNum (Z.of_nat (length es))) ] 200),
     after_call (CallGet (flow_doc self user_id)) w).
Proof.
  intros Hdoc Hserved.
  rewrite (load_flow_found self user_id w
             (after_call (CallGet (flow_doc self user_id)) w)
             (saved_document ns es theme t)).
  - reflexivity.
  - by rewrite get_flow_data_run, (served_next _ _ Hserved), Hdoc.
  - reflexivity.
Qed.

(** X12. For a [user_id] that names a document of the collection, saving
    through the route and loading through the route gives back what the
    request held: the save answers 200 with the two lengths, and the load
    answers 200 with the same nodes, edges and theme, with these lengths as
    counts and the time of the write. The elements of the lists are not looked
    at: any list is stored as it is. *)
Theorem save_then_load_routes
    (self : FlowDataManager.t) (data : gmap string json) (user_id : string)
    (ns es : list json) (w : world) :
  default (JStr "default_user") (data !! "user_id") = JStr user_id ->
  is_document_id user_id = true ->
  default (JList []) (data !! "nodes") = JList ns ->
  default (JList []) (data !! "edges") = JList es ->
  served 2 w ->
  exists w1 w2,
    save_flow (Some self) (Request (Some (JDict data))) w =
      (Ok (jsonify [ ("message", JStr "Flow data saved successfully");
                     ("node_count", JNum (Z.of_nat (length ns)));
                     ("edge_count", JNum (Z.of_nat (length es))) ] 200), w1) /\
    load_flow (Some self) user_id w1 =
      (Ok (jsonify [ ("nodes", JList ns);
                     ("edges", JList es);
                     ("theme", default (JStr "light") (data !! "theme"));
                     ("updated_at", JTime (server_time w));
                     ("node_count", JNum (Z.of_nat (length ns)));
                     ("edge_count", JNum (Z.of_nat (length es))) ] 200), w2).
Proof.
  intros Huser _ Hns Hes Hserved.
  rewrite (save_flow_delegates self data ns es w Hns Hes). unfold bind.
  rewrite Huser, save_flow_data_run, (served_next _ _ Hserved).
  generalize (default (JStr "light") (data !! "theme")). intros theme.
  eexists _, _. split; [reflexivity|].
  apply load_saved_document.
  - simpl. by rewrite lookup_insert_eq.
  - apply served_set_docs. by apply (served_after 1).
Qed.

(** X13. When the write raises, the save route answers 500 with
    ["Failed to save flow data"] and no stored document has changed. *)
Theorem save_flow_store_failure
    (self : FlowDataManager.t) (data : gmap string json) (user_id : string)
    (ns es : list json) (w : world) (e : exn) :
  default (JStr "default_user") (data !! "user_id") = JStr user_id ->
  default (JList []) (data !! "nodes") = JList ns ->
  default (JList []) (data !! "edges") = JList es ->
  next_fault w = Some e ->
  exists w',
    save_flow (Some self) (Request (Some (JDict data))) w =
      (Ok (jsonify [("error", JStr "Failed to save flow data")] 500), w') /\
    docs w' = docs w.
Proof.
  intros Huser Hns Hes Hfault.
  rewrite (save_flow_delegates self data ns es w Hns Hes). unfold bind.
  rewrite Huser, save_flow_data_run, Hfault.
  eexists. split; reflexivity.
Qed.

(** X14. A body that does not parse as JSON, or that is no JSON object, makes
    the save route and the add-node route answer 500 with the text of the
    exception; neither reaches the store. *)
Theorem unreadable_body_is_500
    (self : FlowDataManager.t) (request : http_request) (w : world) :
  (forall m, payload request <> Some (JDict m)) ->
  (exists msg,
     save_flow (Some self) request w
       = (Ok (jsonify [("error", JStr msg)] 500), w)) /\
  (exists msg,
     add_node (Some self) request w
       = (Ok (jsonify [("error", JStr msg)] 500), w)).
Proof.
  intros Hbody. unfold save_flow, add_node. run_monad.
  destruct request as [[v|]]; simpl in *.
  - destruct v; try (split; eexists; reflexivity).
    by destruct (Hbody m).
  - split; eexists; reflexivity.
Qed.

(** ** More on adding a node *)

Lemma add_node_route_run
    (self : FlowDataManager.t) (data : gmap string json) (node : json)
    (w : world) :
  data !! "node" = Some node ->
  truthy node = true ->
  add_node (Some self) (Request (Some (JDict data))) w =
    let r := FlowDataManager.add_node self
               (default (JStr "default_user") (data !! "user_id")) (w, node) in
    match r.1 with
    | Ok true => (Ok (jsonify [("message", JStr "Node added successfully")] 200),
                  r.2.1)
    | Ok false => (Ok (jsonify [("error", JStr "Failed to add node")] 500),
                   r.2.1)
    | Raise e => (Ok (jsonify [("error", JStr (exn_str e))] 500), r.2.1)
    end.
Proof.
  intros Hnode Htruthy.
  unfold add_node, try_except, bind, get_json, lift, py_get, ret, with_obj.
  simpl. rewrite Hnode. simpl. rewrite Htruthy. simpl.
  destruct (FlowDataManager.add_node self _ (w, node)) as [[[|]|e] [w' node']];
    reflexivity.
Qed.

(** X15. A node that is there but holds no mapping under ['data'] passes the
    route's check and then fails in the data access layer: the add-node route
    answers 500 with ["Failed to add node"], not 400, and the store is left as
    it was. *)
Theorem add_node_route_without_data
    (self : FlowDataManager.t) (data : gmap string json) (node : json)
    (w : world) :
  data !! "node" = Some node ->
  truthy node = true ->
  ~ has_data_mapping node ->
  add_node (Some self) (Request (Some (JDict data))) w
    = (Ok (jsonify [("error", JStr "Failed to add node")] 500), w).
Proof.
  intros Hnode Htruthy Hno.
  rewrite (add_node_route_run self data node w Hnode Htruthy). cbv zeta.
  by rewrite add_node_without_data.
Qed.

(** X16. [add_node] does not create a document: for a key that names a
    document of the collection and has none stored, the update is sent once
    and fails (the store refuses to update what is not there), the flag is
    the failure flag, the user still has no document, and the add-node route
    answers 500. *)
Theorem add_node_missing_document
    (self : FlowDataManager.t) (user_id : string) (node : json)
    (d : gmap string json) (w : world) :
  is_document_id user_id = true ->
  docs w !! flow_doc self user_id = None ->
  field "data" node = Some (JDict d) ->
  exists w',
    FlowDataManager.add_node self (JStr user_id) (w, node)
      = (Ok false, (w', stamped (local_time w) node)) /\
    docs w' = docs w /\
    calls w' = CallUpdate (flow_doc self user_id) :: calls w /\
    (forall data,
       data !! "node" = Some node ->
       data !! "user_id" = Some (JStr user_id) ->
       add_node (Some self) (Request (Some (JDict data))) w
         = (Ok (jsonify [("error", JStr "Failed to add node")] 500), w')).
Proof.
  intros _ Habsent Hdata.
  assert (Hrun : FlowDataManager.add_node self (JStr user_id) (w, node)
                 = (Ok false, (after_call (CallUpdate (flow_doc self user_id)) w,
                               stamped (local_time w) node))).
  { rewrite add_node_run, Hdata, Habsent. cbv zeta.
    by destruct (next_fault w). }
  eexists. split; [exact Hrun|]. split; [reflexivity|]. split; [reflexivity|].
  intros data Hnode Huser.
  rewrite (add_node_route_run self data node w Hnode).
  - cbv zeta. rewrite Huser. simpl default. by rewrite Hrun.
  - destruct node; try discriminate. simpl.
    rewrite bool_decide_eq_false_2; [done|].
    intros ->. simpl in Hdata. rewrite lookup_empty in Hdata. discriminate.
Qed.

(** X17. Adding a node whose stamped value is already stored succeeds and
    leaves the array of nodes as it is: the append is a union by value. *)
Theorem add_node_same_value
    (self : FlowDataManager.t) (user_id : string) (node : json)
    (d doc : gmap string json) (w : world) :
  docs w !! flow_doc self user_id = Some doc ->
  field "data" node = Some (JDict d) ->
  stamped (local_time w) node ∈ stored_array doc "nodes" ->
  served 1 w ->
  exists w' doc',
    FlowDataManager.add_node self (JStr user_id) (w, node)
      = (Ok true, (w', stamped (local_time w) node)) /\
    docs w' !! flow_doc self user_id = Some doc' /\
    doc' !! "nodes" = Some (JList (stored_array doc "nodes")).
Proof.
  intros Hdoc Hdata Hin Hserved.
  rewrite add_node_run, Hdata, Hdoc, (served_next _ _ Hserved). cbv zeta.
  eexists _, _. split; [reflexivity|]. simpl. rewrite lookup_insert_eq.
  split; [reflexivity|].
  unfold write_fields, write_field. simpl.
  rewrite lookup_insert_ne, lookup_insert_eq by done.
  by rewrite bool_decide_eq_true_2.
Qed.

(** X18. After a node was added, the load route shows the drift of the count:
    it returns one node more than before and the [node_count] of before. *)
Theorem add_then_load_count_drift
    (self : FlowDataManager.t) (user_id : string) (node count : json)
    (d doc : gmap string json) (ns : list json) (w : world) :
  docs w !! flow_doc self user_id = Some doc ->
  doc !! "nodes" = Some (JList ns) ->
  doc !! "node_count" = Some count ->
  field "data" node = Some (JDict d) ->
  stamped (local_time w) node ∉ ns ->
  served 2 w ->
  exists w1 w2 answer,
    FlowDataManager.add_node self (JStr user_id) (w, node)
      = (Ok true, (w1, stamped (local_time w) node)) /\
    load_flow (Some self) user_id w1 = (Ok (Response (JDict answer) 200), w2) /\
    answer !! "nodes" = Some (JList (ns ++ [stamped (local_time w) node])) /\
    answer !! "node_count" = Some count.
Proof.
  intros Hdoc Hns Hcount Hdata Hfresh Hserved.
  rewrite add_node_run, Hdata, Hdoc, (served_next _ _ Hserved). cbv zeta.
  set (doc' := write_fields _ _ doc).
  assert (Hns' : doc' !! "nodes"
                 = Some (JList (ns ++ [stamped (local_time w) node]))).
  { subst doc'. unfold write_fields, write_field, stored_array. simpl.
    rewrite lookup_insert_ne, lookup_insert_eq, Hns by done.
    by rewrite bool_decide_eq_false_2. }
  assert (Hcount' : doc' !! "node_count" = Some count).
  { subst doc'. unfold write_fields, write_field. simpl.
    by rewrite !lookup_insert_ne. }
  eexists _, _, _. split; [reflexivity|].
  split.
  - eapply (load_flow_found self user_id _ _ doc').
    + rewrite get_flow_data_run.
      assert (Hnext : next_fault
                (set_docs (<[flow_doc self user_id := doc']>)
                   (after_call (CallUpdate (flow_doc self user_id)) w)) = None).
      { apply (served_next 0), served_set_docs. by apply (served_after 1). }
      rewrite Hnext. simpl. by rewrite lookup_insert_eq.
    + by apply (truthy_dict_lookup _ _ _ Hns').
  - unfold dict. simpl. rewrite Hns', Hcount'. split; by simplify_map_eq.
Qed.

(** ** The delete routes *)

(** X19. A served delete through the route answers 200 and leaves the user
    without a document, whether or not there was one, so deleting again
    gives the same; when the delete raises the route answers 500 and every
    document stays. *)
Theorem delete_flow_route
    (self : FlowDataManager.t) (user_id : string) (w : world) :
  (served 1 w ->
   exists w',
     delete_flow (Some self) user_id w
       = (Ok (jsonify [("message", JStr "Flow data deleted successfully")] 200),
          w') /\
     docs w' !! flow_doc self user_id = None) /\
  (forall e,
     next_fault w = Some e ->
     exists w',
       delete_flow (Some self) user_id w
         = (Ok (jsonify [("error", JStr "Failed to delete flow data")] 500), w') /\
       docs w' = docs w).
Proof.
  unfold delete_flow, try_except, bind. rewrite delete_flow_data_run. split.
  - intros Hserved. rewrite (served_next _ _ Hserved).
    eexists. split; [reflexivity|]. simpl. apply lookup_delete_eq.
  - intros e ->. eexists. split; reflexivity.
Qed.

(** X20. The delete-node route answers 500 with ["Failed to delete node"] for
    a user without a document, and writes nothing; on a document of nodes and
    edges, with the store serving, it answers 200. *)
Theorem delete_node_route
    (self : FlowDataManager.t) (user_id node_id : string) (w : world) :
  (docs w !! flow_doc self user_id = None ->
   exists w',
     delete_node (Some self) user_id node_id w
       = (Ok (jsonify [("error", JStr "Failed to delete node")] 500), w') /\
     docs w' = docs w /\
     writes_issued w' = writes_issued w) /\
  (forall doc ns es,
     docs w !! flow_doc self user_id = Some doc ->
     doc !! "nodes" = Some (JList ns) ->
     doc !! "edges" = Some (JList es) ->
     Forall is_node ns ->
     Forall is_edge es ->
     served 2 w ->
     (delete_node (Some self) user_id node_id w).1
       = Ok (jsonify [("message", JStr "Node deleted successfully")] 200)).
Proof.
  unfold delete_node, try_except, bind. split.
  - intros Habsent. rewrite remove_node_absent by assumption.
    eexists. split; [reflexivity|]. split; reflexivity.
  - intros doc ns es Hdoc Hns Hes Hnodes Hedges Hserved.
    by rewrite (remove_node_present self user_id node_id w doc ns es).
Qed.

(** ** Start-up, the health check and the routes as a whole *)

(** X21. Without a client there is no manager, and then every data route
    answers 500 with ["Firebase not initialized"] before it looks at the
    request or the store; the health check still answers 200 and reports the
    store as not connected. *)
Theorem uninitialised_module
    (request : http_request) (user_id node_id : string) (w : world) :
  module_flow_manager None = None /\
  save_flow (module_flow_manager None) request w = (Ok not_initialized, w) /\
  load_flow (module_flow_manager None) user_id w = (Ok not_initialized, w) /\
  add_node (module_flow_manager None) request w = (Ok not_initialized, w) /\
  delete_node (module_flow_manager None) user_id node_id w
    = (Ok not_initialized, w) /\
  delete_flow (module_flow_manager None) user_id w = (Ok not_initialized, w) /\
  list_users None w = (Ok not_initialized, w) /\
  status not_initialized = 500 /\
  health_check None w =
    (Ok (jsonify [ ("status", JStr "healthy");
                   ("firebase_connected", JBool false);
                   ("timestamp", JStr (local_time w)) ] 200), w).
Proof. repeat split. Qed.

Lemma collect_users_run snapshots users w :
  collect_users snapshots users w
  = (Ok (users ++ ((fun d => user_summary d.1 d.2) <$> snapshots)), w).
Proof.
  revert users. induction snapshots as [|d rest IH]; intros users; simpl.
  - by rewrite app_nil_r.
  - unfold bind, lift, py_get. simpl. rewrite IH.
    by rewrite <- app_assoc.
Qed.

Ltac case_inner :=
  repeat (match goal with
          | |- context [match ?x with _ => _ end] =>
              lazymatch x with
              | context [match _ with _ => _ end] => fail
              | _ => destruct x eqn:?
              end
          end; simpl in *; try discriminate).

(** X22. Every route answers every request, in every state of the store and
    with or without a manager: no exception leaves a handler, and the status
    is 200, 400 or 500. *)
Theorem routes_always_answer
    (flow_manager : option FlowDataManager.t) (db : option firestore_client)
    (request : http_request) (user_id node_id : string) (w : world) :
  answers (save_flow flow_manager request) w /\
  answers (load_flow flow_manager user_id) w /\
  answers (add_node flow_manager request) w /\
  answers (delete_node flow_manager user_id node_id) w /\
  answers (delete_flow flow_manager user_id) w /\
  answers (list_users db) w /\
  answers (health_check db) w.
Proof.
  unfold answers.
  repeat split.
  - unfold save_flow. destruct flow_manager; run_monad;
      case_inner; eexists _, _; (split; [reflexivity|]); simpl; auto.
  - unfold load_flow. destruct flow_manager; run_monad;
      case_inner; eexists _, _; (split; [reflexivity|]); simpl; auto.
  - unfold add_node. destruct flow_manager; run_monad;
      case_inner; eexists _, _; (split; [reflexivity|]); simpl; auto.
  - unfold delete_node. destruct flow_manager; run_monad;
      case_inner; eexists _, _; (split; [reflexivity|]); simpl; auto.
  - unfold delete_flow. destruct flow_manager; run_monad;
      case_inner; eexists _, _; (split; [reflexivity|]); simpl; auto.
  - unfold list_users, collection_stream. destruct db.
    + unfold try_except, bind, round_trip, gets.
      destruct (next_fault w); simpl.
      * eexists _, _. split; [reflexivity|]. simpl. auto.
      * rewrite collect_users_run.
        eexists _, _. split; [reflexivity|]. simpl. auto.
    + eexists _, _. split; [reflexivity|]. simpl. auto.
  - unfold health_check. run_monad.
    eexists _, _. split; [reflexivity|]. simpl. auto.
Qed.

(** ** Listing the users *)

(** X23. When its read is served, the listing answers 200 with exactly one
    summary for each document of the collection ["reactflow_data"]: the
    document's id, and its counts, theme and write time or their defaults.
    It changes no document. *)
Theorem list_users_summaries (client : firestore_client) (w : world) :
  served 1 w ->
  exists users w',
    list_users (Some client) w = (Ok (jsonify [("users", JList users)] 200), w') /\
    docs w' = docs w /\
    writes_issued w' = writes_issued w /\
    (forall entry,
       entry ∈ users <->
       exists user_id doc,
         docs w !! ("reactflow_data", user_id) = Some doc /\
         entry = user_summary user_id doc).
Proof.
  intros Hserved.
  unfold list_users, collection_stream, try_except, bind, round_trip, gets.
  rewrite (served_next _ _ Hserved). simpl. rewrite collect_users_run. simpl.
  eexists _, _. split; [reflexivity|]. split; [reflexivity|].
  split; [reflexivity|].
  intros entry. rewrite list_elem_of_fmap. split.
  - intros ([u doc] & -> & Hin). apply list_elem_of_omap in Hin
      as ([[c u'] doc'] & Hin & Hsome).
    simpl in Hsome. case_bool_decide; [|discriminate].
    injection Hsome as -> ->. subst c.
    apply elem_of_map_to_list in Hin. eauto.
  - intros (u & doc & Hdoc & ->). exists (u, doc). split; [reflexivity|].
    apply list_elem_of_omap. exists (("reactflow_data", u), doc).
    split; [by apply elem_of_map_to_list|].
    rewrite bool_decide_eq_true_2 by reflexivity. reflexivity.
Qed.

(** X24. When its read raises, the listing answers 500 with the text of the
    error: unlike the load route it does not turn an outage into an empty
    answer. *)
Theorem list_users_outage (client : firestore_client) (w : world) (e : exn) :
  next_fault w = Some e ->
  exists w',
    list_users (Some client) w
      = (Ok (jsonify [("error", JStr (exn_str e))] 500), w') /\
    docs w' = docs w.
Proof.
  intros Hfault.
  unfold list_users, collection_stream, try_except, bind, round_trip, gets.
  rewrite Hfault. eexists. split; reflexivity.
Qed.

(** X25. A user whose canvas was saved by the module's manager under a key
    that names a document directly in the collection is listed, with the
    number of saved nodes and edges, the saved theme and the time of the
    write. *)
Theorem saved_user_is_listed
    (client : firestore_client) (user_id : string) (ns es : list json)
    (theme : json) (w w1 : world) :
  is_document_id user_id = true ->
  FlowDataManager.save_flow_data FlowDataManager.init (JStr user_id)
    (JList ns) (JList es) theme w = (Ok true, w1) ->
  served 1 w1 ->
  exists users w2,
    list_users (Some client) w1 = (Ok (jsonify [("users", JList users)] 200), w2) /\
    JDict (dict [ ("user_id", JStr user_id);
                  ("node_count", JNum (Z.of_nat (length ns)));
                  ("edge_count", JNum (Z.of_nat (length es)));
                  ("theme", theme);
                  ("updated_at", JTime (server_time w)) ]) ∈ users.
Proof.
  intros _ Hsave Hserved.
  rewrite save_flow_data_run in Hsave.
  destruct (next_fault w); [discriminate|]. injection Hsave as <-.
  unfold list_users, collection_stream, try_except, bind, round_trip, gets.
  rewrite (served_next _ _ Hserved). simpl. rewrite collect_users_run. simpl.
  eexists _, _. split; [reflexivity|].
  apply list_elem_of_fmap.
  exists (user_id, saved_document ns es theme (server_time w)).
  split; [reflexivity|].
  apply list_elem_of_omap.
  exists (("reactflow_data", user_id),
          saved_document ns es theme (server_time w)).
  split.
  - apply elem_of_map_to_list. apply lookup_insert_eq.
  - rewrite bool_decide_eq_true_2 by reflexivity. reflexivity.
Qed.

(** ** Round trips *)

(** X26. Nothing is retried: for a key that names a document of the
    collection, whether the store serves or raises, each of [save_flow_data],
    [get_flow_data], [delete_flow_data] and [add_node] issues one round trip,
    and [remove_node] its read followed by at most one update. *)
Theorem no_retry
    (self : FlowDataManager.t) (user_id : string) (w : world) :
  is_document_id user_id = true ->
  (forall ns es theme b w',
     FlowDataManager.save_flow_data self (JStr user_id) (JList ns) (JList es)
       theme w = (Ok b, w') ->
     calls w' = CallSet (flow_doc self user_id) :: calls w) /\
  (forall r w',
     FlowDataManager.get_flow_data self (JStr user_id) w = (Ok r, w') ->
     calls w' = CallGet (flow_doc self user_id) :: calls w) /\
  (forall b w',
     FlowDataManager.delete_flow_data self (JStr user_id) w = (Ok b, w') ->
     calls w' = CallDelete (flow_doc self user_id) :: calls w) /\
  (forall node b w' node',
     has_data_mapping node ->
     FlowDataManager.add_node self (JStr user_id) (w, node)
       = (Ok b, (w', node')) ->
     calls w' = CallUpdate (flow_doc self user_id) :: calls w) /\
  (forall node_id b w',
     FlowDataManager.remove_node self (JStr user_id) node_id w = (Ok b, w') ->
     calls w' = CallGet (flow_doc self user_id) :: calls w \/
     calls w' = CallUpdate (flow_doc self user_id)
                  :: CallGet (flow_doc self user_id) :: calls w).
Proof.
  intros _.
  split; [|split; [|split; [|split]]].
  - intros ns es theme b w'. rewrite save_flow_data_run.
    destruct (next_fault w); intros [= <- <-]; reflexivity.
  - intros r w'. rewrite get_flow_data_run. intros [= <- <-]. reflexivity.
  - intros b w'. rewrite delete_flow_data_run.
    destruct (next_fault w); intros [= <- <-]; reflexivity.
  - intros node b w' node' [d Hdata]. rewrite add_node_run, Hdata. cbv zeta.
    destruct (next_fault w); [intros [= <- <- <-]; reflexivity|].
    destruct (docs w !! _); intros [= <- <- <-]; reflexivity.
  - intros node_id b w'. rewrite remove_node_run. cbv zeta.
    case_run; intros [= <- <-]; simpl; auto.
Qed.

(** ** The further properties on the sample stores *)

Lemma failure_changes_no_document_witness :
  docs (FlowDataManager.save_flow_data FlowDataManager.init (JStr "alice")
          (JList []) (JList []) (JStr "light") (outage saved_world)).2
  = docs (outage saved_world).
Proof.
  refine (proj1 (failure_changes_no_document FlowDataManager.init (JStr "alice")
                   (outage saved_world) _) (JList []) (JList []) (JStr "light") _).
  vm_compute. reflexivity.
Defined.

Lemma other_documents_untouched_witness :
  docs (FlowDataManager.delete_flow_data FlowDataManager.init (JStr "alice")
          two_users_world).2 !! flow_doc FlowDataManager.init "bob"
  = docs two_users_world !! flow_doc FlowDataManager.init "bob".
Proof.
  refine (proj1 (proj2 (other_documents_untouched FlowDataManager.init "alice"
                          two_users_world _ true
                          (flow_doc FlowDataManager.init "bob") _)) _).
  - intros [=].
  - vm_compute. reflexivity.
Defined.

Lemma remove_node_keeps_other_fields_witness :
  exists doc',
    docs (FlowDataManager.remove_node FlowDataManager.init (JStr "alice") "n1"
            saved_world).2 !! flow_doc FlowDataManager.init "alice" = Some doc' /\
    doc' !! "node_count" = Some (JNum 2) /\
    doc' !! "edge_count" = Some (JNum 1).
Proof.
  assert (Hrun :
    FlowDataManager.remove_node FlowDataManager.init (JStr "alice") "n1" saved_world
    = (Ok true,
       (FlowDataManager.remove_node FlowDataManager.init (JStr "alice") "n1"
          saved_world).2)) by (vm_compute; reflexivity).
  destruct (remove_node_keeps_other_fields _ _ _ _ _ Hrun)
    as (doc & doc' & Hdoc & Hdoc' & _ & Hnc & Hec & _).
  exists doc'. split; [exact Hdoc'|].
  assert (Hsaved : docs saved_world !! flow_doc FlowDataManager.init "alice"
                   = Some saved_doc) by (vm_compute; reflexivity).
  assert (doc = saved_doc) as -> by congruence.
  rewrite Hnc, Hec. split; vm_compute; reflexivity.
Defined.

Lemma remove_node_cleans_references_witness :
  exists w' doc' ns' es',
    FlowDataManager.remove_node FlowDataManager.init (JStr "alice") "n1" saved_world
      = (Ok true, w') /\
    docs w' !! flow_doc FlowDataManager.init "alice" = Some doc' /\
    doc' !! "nodes" = Some (JList ns') /\
    doc' !! "edges" = Some (JList es') /\
    Forall (fun n => field "id" n <> Some (JStr "n1")) ns' /\
    Forall (fun e => field "source" e <> Some (JStr "n1") /\
                     field "target" e <> Some (JStr "n1")) es' /\
    sublist ns' [sample_n1; sample_n2] /\
    sublist es' [sample_edge].
Proof.
  apply (remove_node_cleans_references FlowDataManager.init "alice" "n1"
           saved_world saved_doc).
  - vm_compute. reflexivity.
  - vm_compute. reflexivity.
  - vm_compute. reflexivity.
  - repeat constructor; eexists; vm_compute; reflexivity.
  - repeat constructor; eexists; vm_compute; reflexivity.
  - unfold served. simpl. constructor.
Defined.

Lemma remove_node_twice_witness :
  exists w1 w2 doc1 doc2,
    FlowDataManager.remove_node FlowDataManager.init (JStr "alice") "n1" saved_world
      = (Ok true, w1) /\
    FlowDataManager.remove_node FlowDataManager.init (JStr "alice") "n1" w1
      = (Ok true, w2) /\
    docs w1 !! flow_doc FlowDataManager.init "alice" = Some doc1 /\
    docs w2 !! flow_doc FlowDataManager.init "alice" = Some doc2 /\
    doc2 !! "nodes" = doc1 !! "nodes" /\
    doc2 !! "edges" = doc1 !! "edges".
Proof.
  apply (remove_node_twice FlowDataManager.init "alice" "n1" saved_world
           saved_doc [sample_n1; sample_n2] [sample_edge]).
  - vm_compute. reflexivity.
  - vm_compute. reflexivity.
  - vm_compute. reflexivity.
  - repeat constructor; eexists; vm_compute; reflexivity.
  - repeat constructor; eexists; vm_compute; reflexivity.
  - unfold served. simpl. constructor.
Defined.

Lemma remove_node_malformed_entry_witness :
  FlowDataManager.remove_node FlowDataManager.init (JStr "carol") "n1" legacy_world
    = (Ok false,
       after_call (CallGet (flow_doc FlowDataManager.init "carol")) legacy_world) /\
  delete_node (Some FlowDataManager.init) "carol" "n1" legacy_world
    = (Ok (jsonify [("error", JStr "Failed to delete node")] 500),
       after_call (CallGet (flow_doc FlowDataManager.init "carol")) legacy_world).
Proof.
  apply (remove_node_malformed_entry FlowDataManager.init "carol" "n1"
           legacy_world
           (dict [ ("nodes", JList [sample_n1; JDict (dict [("label", JStr "x")])]);
                   ("edges", JList []);
                   ("owner", JStr "carol") ])
           [sample_n1; JDict (dict [("label", JStr "x")])] []).
  - vm_compute. reflexivity.
  - vm_compute. reflexivity.
  - vm_compute. reflexivity.
  - unfold served. simpl. constructor.
  - left. exists (JDict (dict [("label", JStr "x")])). split.
    + apply list_elem_of_further, list_elem_of_here.
    + intros [i Hi]. vm_compute in Hi. discriminate.
Defined.

Lemma remove_node_missing_arrays_witness :
  exists w' doc',
    FlowDataManager.remove_node FlowDataManager.init (JStr "dave") "n1" bare_world
      = (Ok true, w') /\
    docs w' !! flow_doc FlowDataManager.init "dave" = Some doc' /\
    doc' !! "nodes" = Some (JList []) /\
    doc' !! "edges" = Some (JList []).
Proof.
  apply (remove_node_missing_arrays FlowDataManager.init "dave" "n1" bare_world
           (dict [("theme", JStr "dark")])).
  - vm_compute. reflexivity.
  - intros Hempty.
    assert (Htheme := f_equal (fun m : gmap string json => m !! "theme") Hempty).
    vm_compute in Htheme. discriminate.
  - vm_compute. reflexivity.
  - vm_compute. reflexivity.
  - unfold served. simpl. constructor.
Defined.

Lemma load_flow_outage_looks_empty_witness :
  load_flow (Some FlowDataManager.init) "alice" (outage saved_world)
  = (Ok empty_default,
     after_call (CallGet (flow_doc FlowDataManager.init "alice"))
       (outage saved_world)).
Proof.
  apply (load_flow_outage_looks_empty FlowDataManager.init "alice"
           (outage saved_world) saved_doc (StoreFailure "503 unavailable")).
  - vm_compute. reflexivity.
  - reflexivity.
Defined.

Lemma load_flow_projection_witness :
  exists m,
    (load_flow (Some FlowDataManager.init) "carol" legacy_world).1
      = Ok (Response (JDict m) 200) /\
    m !! "theme" = Some (JStr "light") /\
    m !! "node_count" = Some (JNum 0) /\
    m !! "owner" = None.
Proof.
  destruct (load_flow_projection FlowDataManager.init "carol" legacy_world
              (dict [ ("nodes", JList [sample_n1; JDict (dict [("label", JStr "x")])]);
                      ("edges", JList []);
                      ("owner", JStr "carol") ]))
    as (Hfull & _).
  - vm_compute. reflexivity.
  - unfold served. simpl. constructor.
  - destruct Hfull as (m & Hload & _ & _ & Htheme & _ & Hcount & _ & Hother).
    + intros Hempty.
      assert (Howner := f_equal (fun m : gmap string json => m !! "owner") Hempty).
      vm_compute in Howner. discriminate.
    + exists m. split; [exact Hload|].
      split; [rewrite Htheme; vm_compute; reflexivity|].
      split; [rewrite Hcount; vm_compute; reflexivity|].
      apply Hother. refine (bool_decide_unpack _ _). vm_compute. exact I.
Defined.

Lemma save_then_load_routes_witness :
  exists w1 w2,
    save_flow (Some FlowDataManager.init) (Request (Some (JDict sample_body)))
      sample_world =
      (Ok (jsonify [ ("message", JStr "Flow data saved successfully");
                     ("node_count", JNum 2);
                     ("edge_count", JNum 1) ] 200), w1) /\
    load_flow (Some FlowDataManager.init) "alice" w1 =
      (Ok (jsonify [ ("nodes", JList [sample_n1; sample_n2]);
                     ("edges", JList [sample_edge]);
                     ("theme", JStr "dark");
                     ("updated_at", JTime 100);
                     ("node_count", JNum 2);
                     ("edge_count", JNum 1) ] 200), w2).
Proof.
  apply (save_then_load_routes FlowDataManager.init sample_body "alice"
           [sample_n1; sample_n2] [sample_edge] sample_world).
  - vm_compute. reflexivity.
  - reflexivity.
  - vm_compute. reflexivity.
  - vm_compute. reflexivity.
  - unfold served. simpl. constructor.
Defined.

Lemma save_flow_store_failure_witness :
  exists w',
    save_flow (Some FlowDataManager.init) (Request (Some (JDict sample_body)))
      (outage sample_world) =
      (Ok (jsonify [("error", JStr "Failed to save flow data")] 500), w') /\
    docs w' = docs (outage sample_world).
Proof.
  apply (save_flow_store_failure FlowDataManager.init sample_body "alice"
           [sample_n1; sample_n2] [sample_edge] (outage sample_world)
           (StoreFailure "503 unavailable")).
  - vm_compute. reflexivity.
  - vm_compute. reflexivity.
  - vm_compute. reflexivity.
  - reflexivity.
Defined.

Lemma unreadable_body_is_500_witness :
  exists msg,
    save_flow (Some FlowDataManager.init)
      (Request (Some (JList [sample_n1]))) saved_world
    = (Ok (jsonify [("error", JStr msg)] 500), saved_world).
Proof.
  apply (unreadable_body_is_500 FlowDataManager.init
           (Request (Some (JList [sample_n1]))) saved_world).
  intros m. discriminate.
Defined.

Lemma add_node_route_without_data_witness :
  add_node (Some FlowDataManager.init)
    (Request (Some (JDict (dict [("node", JDict (dict [("id", JStr "n3")]))]))))
    saved_world
  = (Ok (jsonify [("error", JStr "Failed to add node")] 500), saved_world).
Proof.
  apply (add_node_route_without_data FlowDataManager.init _
           (JDict (dict [("id", JStr "n3")]))).
  - vm_compute. reflexivity.
  - vm_compute. reflexivity.
  - intros [d Hd]. vm_compute in Hd. discriminate.
Defined.

Lemma add_node_missing_document_witness :
  exists w',
    FlowDataManager.add_node FlowDataManager.init (JStr "bob")
      (saved_world, sample_n3)
      = (Ok false, (w', stamped (local_time saved_world) sample_n3)) /\
    docs w' = docs saved_world.
Proof.
  destruct (add_node_missing_document FlowDataManager.init "bob" sample_n3
              (dict [("label", JStr "Ship")]) saved_world)
    as (w' & Hrun & Hdocs & _).
  - reflexivity.
  - vm_compute. reflexivity.
  - vm_compute. reflexivity.
  - exists w'. split; [exact Hrun | exact Hdocs].
Defined.

Lemma add_node_same_value_witness :
  exists w' doc',
    FlowDataManager.add_node FlowDataManager.init (JStr "alice")
      (added_world, sample_n3)
      = (Ok true, (w', stamped (local_time added_world) sample_n3)) /\
    docs w' !! flow_doc FlowDataManager.init "alice" = Some doc' /\
    doc' !! "nodes"
      = Some (JList [sample_n1; sample_n2;
                     stamped (local_time added_world) sample_n3]).
Proof.
  destruct (add_node_same_value FlowDataManager.init "alice" sample_n3
              (dict [("label", JStr "Ship")])
              (default ∅ (docs added_world !! flow_doc FlowDataManager.init "alice"))
              added_world)
    as (w' & doc' & Hrun & Hdoc' & Hnodes).
  - vm_compute. reflexivity.
  - vm_compute. reflexivity.
  - refine (bool_decide_unpack _ _). vm_compute. exact I.
  - unfold served. simpl. constructor.
  - exists w', doc'. split; [exact Hrun|]. split; [exact Hdoc'|].
    rewrite Hnodes. vm_compute. reflexivity.
Defined.

Lemma add_then_load_count_drift_witness :
  exists w1 w2 answer,
    FlowDataManager.add_node FlowDataManager.init (JStr "alice")
      (saved_world, sample_n3)
      = (Ok true, (w1, stamped (local_time saved_world) sample_n3)) /\
    load_flow (Some FlowDataManager.init) "alice" w1
      = (Ok (Response (JDict answer) 200), w2) /\
    answer !! "nodes"
      = Some (JList ([sample_n1; sample_n2]
                       ++ [stamped (local_time saved_world) sample_n3])) /\
    answer !! "node_count" = Some (JNum 2).
Proof.
  apply (add_then_load_count_drift FlowDataManager.init "alice" sample_n3
           (JNum 2) (dict [("label", JStr "Ship")]) saved_doc
           [sample_n1; sample_n2] saved_world).
  - vm_compute. reflexivity.
  - vm_compute. reflexivity.
  - vm_compute. reflexivity.
  - vm_compute. reflexivity.
  - refine (bool_decide_unpack _ _). vm_compute. exact I.
  - unfold served. simpl. constructor.
Defined.

Lemma delete_flow_route_witness :
  (exists w',
     delete_flow (Some FlowDataManager.init) "alice" saved_world
       = (Ok (jsonify [("message", JStr "Flow data deleted successfully")] 200),
          w') /\
     docs w' !! flow_doc FlowDataManager.init "alice" = None) /\
  (exists w',
     delete_flow (Some FlowDataManager.init) "alice" (outage saved_world)
       = (Ok (jsonify [("error", JStr "Failed to delete flow data")] 500), w') /\
     docs w' = docs (outage saved_world)).
Proof.
  split.
  - apply (delete_flow_route FlowDataManager.init "alice" saved_world).
    unfold served. simpl. constructor.
  - apply (proj2 (delete_flow_route FlowDataManager.init "alice"
                    (outage saved_world)) (StoreFailure "503 unavailable")).
    reflexivity.
Defined.

Lemma delete_node_route_witness :
  exists w',
    delete_node (Some FlowDataManager.init) "bob" "n1" saved_world
      = (Ok (jsonify [("error", JStr "Failed to delete node")] 500), w') /\
    docs w' = docs saved_world /\
    writes_issued w' = writes_issued saved_world.
Proof.
  apply (delete_node_route FlowDataManager.init "bob" "n1" saved_world).
  vm_compute. reflexivity.
Defined.

Lemma list_users_summaries_witness :
  exists users w',
    list_users (Some FirestoreClient) two_users_world
      = (Ok (jsonify [("users", JList users)] 200), w') /\
    user_summary "bob"
      (default ∅ (docs two_users_world !! flow_doc FlowDataManager.init "bob"))
      ∈ users.
Proof.
  destruct (list_users_summaries FirestoreClient two_users_world)
    as (users & w' & Hrun & _ & _ & Hentries).
  - unfold served. simpl. constructor.
  - exists users, w'. split; [exact Hrun|].
    apply Hentries. exists "bob". eexists. split; [|reflexivity].
    vm_compute. reflexivity.
Defined.

Lemma list_users_outage_witness :
  exists w',
    list_users (Some FirestoreClient) (outage saved_world)
      = (Ok (jsonify [("error", JStr "503 unavailable")] 500), w') /\
    docs w' = docs (outage saved_world).
Proof.
  apply (list_users_outage FirestoreClient (outage saved_world)
           (StoreFailure "503 unavailable")).
  reflexivity.
Defined.

Lemma saved_user_is_listed_witness :
  exists users w2,
    list_users (Some FirestoreClient) saved_world
      = (Ok (jsonify [("users", JList users)] 200), w2) /\
    JDict (dict [ ("user_id", JStr "alice");
                  ("node_count", JNum 2);
                  ("edge_count", JNum 1);
                  ("theme", JStr "dark");
                  ("updated_at", JTime 100) ]) ∈ users.
Proof.
  apply (saved_user_is_listed FirestoreClient "alice" [sample_n1; sample_n2]
           [sample_edge] (JStr "dark") sample_world saved_world).
  - reflexivity.
  - vm_compute. reflexivity.
  - unfold served. simpl. constructor.
Defined.

Lemma no_retry_witness :
  calls (FlowDataManager.save_flow_data FlowDataManager.init (JStr "alice")
           (JList []) (JList []) (JStr "light") (outage saved_world)).2
  = CallSet (flow_doc FlowDataManager.init "alice") :: calls (outage saved_world).
Proof.
  refine (proj1 (no_retry FlowDataManager.init "alice" (outage saved_world)
                   eq_refl)
            [] [] (JStr "light") false _ _).
  vm_compute. reflexivity.
Defined.
